(** * ECB_DATAINFO: a shallow embedding of [ecb_datainfo.py] and [config.py]

    The development follows the layout of the Python sources:
    - Python values, truthiness and string formatting;
    - exceptions and the effects of the methods (log records, HTTP requests);
    - the [requests], [pandas] and [sdmx] objects the methods handle;
    - the methods of [ECB_DATA_INFO], in source order;
    - the properties of the methods.

    Text is modelled as [string] (ASCII text), integers as [Z]. *)

From Stdlib Require Import ZArith String Ascii List Bool Lia Sorted Permutation.
From stdpp Require Import base option list strings gmap pretty.

Open Scope string_scope.
Open Scope Z_scope.

(** ** Python values *)

(** The values the optional keyword arguments of the methods can hold. *)
Inductive value : Type :=
| None_
| Str (s : string)
| Int (n : Z)
| Bool_ (b : bool).

(** [bool(v)]: truth value testing, as done by [if v:]. *)
Definition truthy (v : value) : bool :=
  match v with
  | None_ => false
  | Str s => negb (String.eqb s "")
  | Int n => negb (n =? 0)
  | Bool_ b => b
  end.

(** [str(v)], which is what an f-string replacement field inserts. *)
Definition str (v : value) : string :=
  match v with
  | None_ => "None"
  | Str s => s
  | Int n => pretty n
  | Bool_ true => "True"
  | Bool_ false => "False"
  end.

(** [sub in s] on strings. *)
Fixpoint str_in (sub s : string) : bool :=
  String.prefix sub s ||
  match s with
  | EmptyString => false
  | String _ s' => str_in sub s'
  end.

(** [s.split(sep, 1)] for a one-character separator: at most one split, at
    the first occurrence of [sep]. *)
Fixpoint split1 (sep : ascii) (s : string) : list string :=
  match s with
  | EmptyString => [ "" ]
  | String c s' =>
      if Ascii.eqb c sep then [ ""; s' ]
      else match split1 sep s' with
           | a :: rest => String c a :: rest
           | [] => []
           end
  end.

(** The capital letters [A] to [Z]. *)
Definition is_upper (c : ascii) : bool :=
  ((65 <=? nat_of_ascii c) && (nat_of_ascii c <=? 90))%nat.

Definition lower_ascii (c : ascii) : ascii :=
  if is_upper c then ascii_of_nat (nat_of_ascii c + 32) else c.

(** [s.lower()] on ASCII text: the letters [A] to [Z] are lowered and every
    other character is kept. Python also lowers the cased characters
    outside ASCII, so statements that depend on the lowering of such text
    carry the hypothesis [ascii_text]. *)
Fixpoint lower (s : string) : string :=
  match s with
  | EmptyString => EmptyString
  | String c s' => String (lower_ascii c) (lower s')
  end.

(** ** Exceptions and effects *)

(** Exceptions: those the source raises itself ([Exception], [ValueError]),
    those of the Python runtime and of the modelled library methods, and
    [External] for anything raised inside a library call that is taken as a
    parameter (transport, CSV and date parsing, SDMX conversion). *)
Inductive exn : Type :=
| Exception (msg : string)
| ValueError (msg : string)
| AttributeError (msg : string)
| KeyError (key : string)
| HTTPError (msg : string)
| External (msg : string).

Definition exn_msg (e : exn) : string :=
  match e with
  | Exception m | ValueError m | AttributeError m | KeyError m
  | HTTPError m | External m => m
  end.

(** Outcome of a call: a returned value or a raised exception. *)
Inductive result (A : Type) : Type :=
| Ok (a : A)
| Raise (e : exn).
Arguments Ok {A} a.
Arguments Raise {A} e.

(** Outcome of a call into a library taken as a parameter. *)
Definition lib (A : Type) : Type := A + string.

Inductive level : Type := INFO | ERROR.

(** [requests.get(url, headers=..., timeout=...)] *)
Record Request : Type := mkRequest {
  req_url : string;
  req_headers : option (list (string * string));
  req_timeout : Z
}.

(** What a method does besides returning: log records, HTTP requests sent
    with [requests.get], and queries made through the SDMX client. *)
Inductive event : Type :=
| Log (lvl : level) (msg : string)
| HttpGet (req : Request)
| SdmxQuery (resource : string) (id : option string).

(** A method call: the events it produces, in order, and its outcome. *)
Definition M (A : Type) : Type := list event * result A.

Definition ret {A} (a : A) : M A := ([], Ok a).

Definition bind {A B} (m : M A) (k : A -> M B) : M B :=
  match m with
  | (es, Ok a) => let '(es', r) := k a in ((es ++ es')%list, r)
  | (es, Raise e) => (es, Raise e)
  end.

Definition raise {A} (e : exn) : M A := ([], Raise e).
Definition emit (ev : event) : M unit := ([ ev ], Ok tt).
Definition lift {A} (r : result A) : M A := ([], r).
Definition call {A} (r : lib A) : M A :=
  match r with
  | inl a => ret a
  | inr msg => raise (External msg)
  end.

Declare Scope py_scope.
Delimit Scope py_scope with py.
Notation "x <- m ;; k" := (bind m (fun x => k))
  (at level 100, m at next level, right associativity) : py_scope.
Notation "m ;; k" := (bind m (fun _ => k))
  (at level 100, right associativity) : py_scope.
Open Scope py_scope.

Definition logging_info (msg : string) : M unit := emit (Log INFO msg).
Definition logging_error (msg : string) : M unit := emit (Log ERROR msg).

Definition logs (es : list event) : list (level * string) :=
  omap (fun ev => match ev with Log l m => Some (l, m) | _ => None end) es.

Definition requests_sent (es : list event) : list Request :=
  omap (fun ev => match ev with HttpGet r => Some r | _ => None end) es.

(** ** [requests]: the response object *)

(** [text] stands for the decoded body, read by the source as
    [response.text] and as [response.content.decode()]; a body that does not
    decode is outside the model. *)
Record Response : Type := mkResponse {
  status_code : Z;
  url : string;
  headers : list (string * string);
  reason : string;
  text : string
}.

(** [Response.raise_for_status()] of the [requests] library: an [HTTPError]
    for a 4xx or 5xx status, nothing otherwise. *)
Definition raise_for_status (r : Response) : result unit :=
  if (400 <=? status_code r) && (status_code r <? 500) then
    Raise (HTTPError (pretty (status_code r) ++ " Client Error: " ++ reason r
                        ++ " for url: " ++ url r))
  else if (500 <=? status_code r) && (status_code r <? 600) then
    Raise (HTTPError (pretty (status_code r) ++ " Server Error: " ++ reason r
                        ++ " for url: " ++ url r))
  else Ok tt.

(** Rendering of the header mapping inside a log message, in the shape of
    Python's [dict] display for keys and values free of quotes and escapes. *)
Fixpoint str_items (items : list (string * string)) : string :=
  match items with
  | [] => ""
  | [ (k, v) ] => "'" ++ k ++ "': '" ++ v ++ "'"
  | (k, v) :: rest => "'" ++ k ++ "': '" ++ v ++ "', " ++ str_items rest
  end.

Definition str_headers (h : list (string * string)) : string :=
  "{" ++ str_items h ++ "}".

(** ** [pandas]: tables *)

(** A parsed CSV field: text, an integer, or a missing value. *)
Inductive cell : Type :=
| CStr (s : string)
| CInt (n : Z)
| CNaN.

(** An index label: a row position (the default index of a parsed CSV), a
    parsed date/time (an instant as an integer), or the missing instant. *)
Inductive label : Type :=
| Position (i : Z)
| Timestamp (t : Z)
| NaT.

Record DataFrame : Type := mkDataFrame {
  index_name : option string;
  columns : list string;
  rows : list (label * list cell)
}.

(** A [pd.Series] of text: index label and value, in order. *)
Record Series : Type := mkSeries {
  series_name : option string;
  items : list (string * string)
}.

Definition series_index (s : Series) : list string := fst <$> items s.

(** The default [RangeIndex] given to the rows of a parsed CSV. *)
Fixpoint range_index (start : Z) (data : list (list cell)) : list (label * list cell) :=
  match data with
  | [] => []
  | r :: rest => (Position start, r) :: range_index (start + 1) rest
  end.

(** The table [pd.read_csv] builds from a header and data rows that have as
    many fields as the header: the rows under the default index. When the
    rows are longer than the header pandas takes their first fields as the
    index instead, so statements about the index of a parsed table carry
    the hypothesis [rectangular]. *)
Definition frame_of_csv (parsed : list string * list (list cell)) : DataFrame :=
  {| index_name := None; columns := fst parsed; rows := range_index 0 (snd parsed) |}.

(** [df.rename({old: new}, axis=1)] *)
Definition rename (df : DataFrame) (old new : string) : DataFrame :=
  {| index_name := index_name df;
     columns := (fun c => if String.eqb c old then new else c) <$> columns df;
     rows := rows df |}.

Fixpoint position_of (name : string) (cols : list string) : option nat :=
  match cols with
  | [] => None
  | c :: rest => if String.eqb c name then Some O else S <$> position_of name rest
  end.

(** Whether more than one column is named [name]: selecting such a name
    gives a table, not a column. *)
Definition repeated (name : string) (cols : list string) : bool :=
  match position_of name cols with
  | Some i => bool_decide (name ∈ drop (S i) cols)
  | None => false
  end.

(** The cell of a row in the column at position [i] ([NaN] for a short row). *)
Definition cell_at (i : nat) (r : label * list cell) : cell :=
  default CNaN (snd r !! i).

Definition drop_nth {A} (i : nat) (l : list A) : list A := (take i l ++ drop (S i) l)%list.

(** [df.set_index(name)] up to the conversion of the new index: the cells
    that become the index, and the table without that column. *)
Definition set_index (df : DataFrame) (name : string)
  : result (list cell * list string * list (list cell)) :=
  match position_of name (columns df) with
  | None => Raise (KeyError name)
  | Some i =>
      Ok (cell_at i <$> rows df,
          drop_nth i (columns df),
          (fun r => drop_nth i (snd r)) <$> rows df)
  end.

Definition label_key (l : label) : option Z :=
  match l with
  | Position i => Some i
  | Timestamp t => Some t
  | NaT => None
  end.

(** Order of two labels under [sort_index]: by key, ascending or descending,
    missing instants last either way. *)
Definition label_le (ascending : bool) (a b : label) : bool :=
  match label_key a, label_key b with
  | Some x, Some y => if ascending then x <=? y else y <=? x
  | Some _, None => true
  | None, Some _ => false
  | None, None => true
  end.

Fixpoint insert_row (ascending : bool) (r : label * list cell)
    (sorted : list (label * list cell)) : list (label * list cell) :=
  match sorted with
  | [] => [ r ]
  | r' :: rest =>
      if label_le ascending (fst r) (fst r') then r :: r' :: rest
      else r' :: insert_row ascending r rest
  end.

(** [df.sort_index(ascending=ascending)]: the rows ordered by index label.
    Rows with equal labels keep their relative order here; pandas leaves
    that order unspecified. *)
Definition sort_index (ascending : bool) (df : DataFrame) : DataFrame :=
  {| index_name := index_name df;
     columns := columns df;
     rows := foldr (insert_row ascending) [] (rows df) |}.

(** [df.reset_index(drop=True)] *)
Definition reset_index_drop (df : DataFrame) : DataFrame :=
  {| index_name := None;
     columns := columns df;
     rows := range_index 0 (snd <$> rows df) |}.

(** [column.unique().tolist()]: distinct cells in order of first appearance. *)
Global Instance cell_eq_dec : EqDecision cell.
Proof. solve_decision. Defined.

Fixpoint unique (cells : list cell) : list cell :=
  match cells with
  | [] => []
  | c :: rest => c :: filter (fun c' => c' <> c) (unique rest)
  end.

(** ** [sdmx]: the metadata objects *)

Record Codelist : Type := mkCodelist {
  codelist_name : string;
  codes : list (string * string)
}.

Record Representation : Type := mkRepresentation {
  enumerated : option Codelist
}.

Record Component : Type := mkComponent {
  component_id : string;
  local_representation : option Representation
}.

Record DataStructureDefinition : Type := mkDSD {
  dimensions : list Component;
  attributes : list Component;
  measures : list Component
}.

Record DataflowDefinition : Type := mkDataflow {
  dataflow_name : string;
  structure : DataStructureDefinition
}.

(** The message a client query returns: the HTTP response it came with and
    the dataflows it describes, by identifier. *)
Record StructureMessage : Type := mkMessage {
  response : Response;
  dataflow : gmap string DataflowDefinition
}.

(** [sdmx.Client]: [query resource id] is the outcome of
    [client.<resource>(id)]; the provider answers a query the same way each
    time it is asked. The library raises by itself on an answer with an
    error status, so a message that is returned comes with a status that is
    not an error. *)
Record Client : Type := mkClient {
  query : string -> option string -> lib StructureMessage
}.

Definition client_dataflow (c : Client) (id : option string) : M StructureMessage :=
  emit (SdmxQuery "dataflow" id);;
  call (query c "dataflow" id).

(** [ComponentList.get(id)]: the component with that id, or [KeyError]. *)
Fixpoint components_get (cs : list Component) (id : string) : result Component :=
  match cs with
  | [] => Raise (KeyError id)
  | c :: rest => if String.eqb (component_id c) id then Ok c else components_get rest id
  end.

(** [component.local_representation.enumerated] *)
Definition get_enumerated (c : Component) : result (option Codelist) :=
  match local_representation c with
  | None => Raise (AttributeError "'NoneType' object has no attribute 'enumerated'")
  | Some r => Ok (enumerated r)
  end.

(** ** The libraries taken as parameters *)

Record Collaborators : Type := mkCollaborators {
  (** [sdmx.Client("ECB", proxies=..., verify=...)] *)
  sdmx_Client : string -> option (list (string * string)) -> option bool -> Client;
  (** [requests.get] *)
  requests_get : Request -> lib Response;
  (** [pd.read_csv(io.StringIO(text))]: header and data rows *)
  read_csv : string -> lib (list string * list (list cell));
  (** [pd.to_datetime] on the cells of an index; [None] is [NaT] *)
  to_datetime : list cell -> lib (list (option Z));
  (** [sdmx.to_pandas] on the dataflows of a message *)
  to_pandas_dataflows : gmap string DataflowDefinition -> lib Series;
  (** [sdmx.to_pandas] on a list of components: their names *)
  to_pandas_components : list Component -> lib (list string);
  (** [sdmx.to_pandas] on the enumeration of a dimension *)
  to_pandas_enumerated : option Codelist -> lib Series
}.

(** ** [config.py] *)

Definition BASE_URL : string := "https://sdw-wsrest.ecb.europa.eu".
Definition REQUEST_TIMEOUT : Z := 90.

Record code_entry : Type := mkEntry {
  message : string;
  return_ : value
}.

Definition ERROR_CODES_DICT : gmap Z code_entry :=
  list_to_map [
    (400, mkEntry "Bad request" None_);
    (401, mkEntry "Failed to authenticate, check your authenticat…" None_);
    (410, mkEntry "Unauthorized" None_);
    (403, mkEntry "Forbidden" None_);
    (404, mkEntry "Not Found" None_);
    (405, mkEntry "Method not allowed" None_);
    (406, mkEntry "Not acceptable" None_);
    (409, mkEntry "Conflict" None_);
    (415, mkEntry "Unsopprted Media Type" None_);
    (500, mkEntry "Internal Server Error" None_);
    (502, mkEntry "Bad Gateway" None_);
    (503, mkEntry "Service Unavailable" None_);
    (504, mkEntry "Gateway Timeout" None_)
  ].

Definition SUCCESS_CODES_DICT : gmap Z code_entry :=
  list_to_map [
    (200, mkEntry "OK" (Str "Success"));
    (201, mkEntry "Created" (Str "Success"));
    (204, mkEntry "No content" (Str "Success"))
  ].

(** ** [ecb_datainfo.py]: the class [ECB_DATA_INFO] *)

Definition API_ENDPOINT : string := "https://sdw-wsrest.ecb.europa.eu".

(** The attributes of an instance. *)
Record ECB_DATA_INFO : Type := mkInstance {
  proxies : option (list (string * string));
  verify : option bool;
  api_endpoint : string;
  ecb_connection : Client;
  all_dataflows : Series
}.

(** What [__connection_handler] is given: a [requests] response, or the
    SDMX client, which has a [dataflow] attribute. *)
Inductive connector : Type :=
| OfResponse (r : Response)
| OfClient (c : Client).

Definition errors_msgs : gmap Z string :=
  list_to_map [
    (304, "No changes. There have been no changes to the data since the timestamp supplied in the If-Modified-Since header.");
    (400, "Syntax error. Syntactic or semantic issue with the parameters supplied.");
    (404, "No results found. There are no results matching the query.");
    (406, "Not Acceptable.");
    (500, "Internal Server Error. Feel free to try again later or to contact the support hotline https://ecb-registration.escb.eu/statistical-information.");
    (501, "Not implemented.");
    (503, "Service unavailable: Web service is temporarily unavailable.")
  ].

(** [ECB_DATA_INFO.__connection_handler]; the [match] is the test
    ["dataflow" in dir(response)]. *)
Definition connection_handler (resp : connector) : M unit :=
  connector_response <-
    match resp with
    | OfClient c => (m <- client_dataflow c None;; ret (response m))
    | OfResponse r => ret r
    end;;
  let status_code := status_code connector_response in
  let response_url := url connector_response in
  let response_headers := headers connector_response in
  if status_code =? 200 then
    logging_info ("Connection established with url: " ++ response_url
                    ++ " and headers: " ++ str_headers response_headers)
  else if bool_decide (is_Some (errors_msgs !! status_code)) then
    raise (Exception ("Request Error Code: " ++ pretty status_code ++ " - "
                        ++ default "" (errors_msgs !! status_code)))
  else
    logging_error ("Unexpected Error: " ++ response_url ++ " - "
                     ++ str_headers response_headers);;
    logging_error ("Request Error Code: " ++ pretty status_code);;
    lift (raise_for_status connector_response).

Section Methods.

Variable ext : Collaborators.

(** [ECB_DATA_INFO.__ecb_connect]: the connection and the dataflow listing
    it stores on the instance. *)
Definition ecb_connect (proxies : option (list (string * string)))
    (verify : option bool) : M (Client * Series) :=
  let ecb_connection := sdmx_Client ext "ECB" proxies verify in
  connection_handler (OfClient ecb_connection);;
  m <- client_dataflow ecb_connection None;;
  all_dataflows <- call (to_pandas_dataflows ext (dataflow m));;
  ret (ecb_connection, all_dataflows).

(** [ECB_DATA_INFO.__init__] *)
Definition init (proxies : option (list (string * string)))
    (verify : option bool) (api_endpoint : string) : M ECB_DATA_INFO :=
  connected <- ecb_connect proxies verify;;
  ret {| proxies := proxies; verify := verify; api_endpoint := api_endpoint;
         ecb_connection := fst connected; all_dataflows := snd connected |}.

(** [ECB_DATA_INFO.search_dataflow_dimensions] *)
Definition search_dataflow_dimensions (self : ECB_DATA_INFO) (dataflow_id : string)
  : M (list string) :=
  metadata_dataflow <- client_dataflow (ecb_connection self) (Some dataflow_id);;
  match dataflow metadata_dataflow !! dataflow_id with
  | None => raise (ValueError ("No DataflowDefinition found for dataflow: " ++ dataflow_id))
  | Some metadata_dataflow_flow =>
      let dsd_flow := structure metadata_dataflow_flow in
      call (to_pandas_components ext (dimensions dsd_flow))
  end.

(** [ECB_DATA_INFO.search_dataflow_dimension_values] *)
Definition search_dataflow_dimension_values (self : ECB_DATA_INFO)
    (dataflow_id dimension : string) : M Series :=
  metadata_dataflow <- client_dataflow (ecb_connection self) (Some dataflow_id);;
  match dataflow metadata_dataflow !! dataflow_id with
  | None => raise (ValueError ("No DataflowDefinition found for dataflow: " ++ dataflow_id))
  | Some metadata_dataflow_flow =>
      let dsd_flow := structure metadata_dataflow_flow in
      dimensions_list <- call (to_pandas_components ext (dimensions dsd_flow));;
      if negb (bool_decide (dimension ∈ dimensions_list)) then
        raise (ValueError ("Dimension '" ++ dimension ++ "' not found in dataflow: "
                             ++ dataflow_id))
      else
        component <- lift (components_get (dimensions dsd_flow) dimension);;
        dataflow_dimension_values <- lift (get_enumerated component);;
        values_series <- call (to_pandas_enumerated ext dataflow_dimension_values);;
        ret values_series
  end.

(** [ECB_DATA_INFO.all_data_keys_for_dataflow]; [None] is Python's [None],
    returned when the body of the method falls through. *)
Definition all_data_keys_for_dataflow (self : ECB_DATA_INFO) (dataflow_id : string)
  : M (option DataFrame) :=
  if bool_decide (dataflow_id ∈ series_index (all_dataflows self)) then
    let req_url := "https://data-api.ecb.europa.eu/service/data/" ++ dataflow_id in
    response <- (emit (HttpGet (mkRequest req_url (Some [ ("Accept", "text/csv") ]) 90));;
                 call (requests_get ext (mkRequest req_url (Some [ ("Accept", "text/csv") ]) 90)));;
    connection_handler (OfResponse response);;
    df <- call (read_csv ext (text response));;
    ret (Some (frame_of_csv df))
  else
    logging_error ("Provided dataflow: " ++ dataflow_id ++ " is not existing");;
    ret None.

(** [title_c.lower()] on an element of the column: only text has [lower]. *)
Definition cell_lower (c : cell) : result string :=
  match c with
  | CStr s => Ok (lower s)
  | CInt _ => Raise (AttributeError "'int' object has no attribute 'lower'")
  | CNaN => Raise (AttributeError "'float' object has no attribute 'lower'")
  end.

Fixpoint map_result {A B} (f : A -> result B) (l : list A) : result (list B) :=
  match l with
  | [] => Ok []
  | a :: rest =>
      match f a with
      | Raise e => Raise e
      | Ok b => match map_result f rest with
                | Raise e => Raise e
                | Ok bs => Ok (b :: bs)
                end
      end
  end.

(** The row test of [TITLE_COMPL.str.lower().isin(@key_word_results)]. *)
Definition title_isin (key_word_results : list string) (c : cell) : bool :=
  match c with
  | CStr s => bool_decide (lower s ∈ key_word_results)
  | _ => false
  end.

(** [ECB_DATA_INFO.search_data_keys_for_dataflow] *)
Definition search_data_keys_for_dataflow (self : ECB_DATA_INFO) (key_word : string)
    (all_data_keys_for_dataflow : DataFrame) : M DataFrame :=
  match position_of "TITLE_COMPL" (columns all_data_keys_for_dataflow) with
  | Some i =>
      if repeated "TITLE_COMPL" (columns all_data_keys_for_dataflow) then
        raise (AttributeError "'DataFrame' object has no attribute 'unique'")
      else
      let title_compl := cell_at i <$> rows all_data_keys_for_dataflow in
      title_compl_lower <- lift (map_result cell_lower (unique title_compl));;
      let key_word_results := filter (fun title_c => str_in key_word title_c = true)
                                title_compl_lower in
      ret (reset_index_drop
             {| index_name := index_name all_data_keys_for_dataflow;
                columns := columns all_data_keys_for_dataflow;
                rows := filter (fun r => title_isin key_word_results (cell_at i r) = true)
                          (rows all_data_keys_for_dataflow) |})
  | None => raise (AttributeError "'DataFrame' object has no attribute 'TITLE_COMPL'")
  end.

(** [data_flow, series_key_rest = series_key.split(".", 1)] *)
Definition unpack2 (parts : list string) : result (string * string) :=
  match parts with
  | [ a; b ] => Ok (a, b)
  | _ => Raise (ValueError
           ("not enough values to unpack (expected 2, got "
              ++ pretty (Z.of_nat (length parts)) ++ ")"))
  end.

(** [if v: req_url += f'<name>{v}'] *)
Definition add_param (req_url name : string) (v : value) : string :=
  if truthy v then req_url ++ name ++ str v else req_url.

(** [ECB_DATA_INFO._build_url] *)
Definition _build_url (self : ECB_DATA_INFO) (series_key : string)
    (start_date end_date detail update_after
       first_n_observations last_n_observations include_history : value)
  : result string :=
  match unpack2 (split1 "." series_key) with
  | Raise e => Raise e
  | Ok (data_flow, series_key_rest) =>
      let req_url := api_endpoint self ++ "/service/data/" ++ data_flow ++ "/"
                       ++ series_key_rest ++ "?format=csvdata" in
      let req_url := add_param req_url "&startPeriod=" start_date in
      let req_url := add_param req_url "&endPeriod=" end_date in
      let req_url := add_param req_url "&detail=" detail in
      let req_url := add_param req_url "&updatedAfter=" update_after in
      let req_url := add_param req_url "&firstNObservations=" first_n_observations in
      let req_url := add_param req_url "&lastNObservations=" last_n_observations in
      let req_url := add_param req_url "&includeHistory=" include_history in
      Ok req_url
  end.

Definition label_of_instant (t : option Z) : label :=
  match t with
  | Some t => Timestamp t
  | None => NaT
  end.

(** [ECB_DATA_INFO.get_ecb_data]; a [series_key] of [None] is Python's
    [None], for which the body of the method falls through. *)
Definition get_ecb_data (self : ECB_DATA_INFO) (series_key : option string)
    (start_date end_date detail update_after
       first_n_observations last_n_observations include_history : value)
    (ascending : bool) : M (option DataFrame) :=
  match series_key with
  | Some series_key =>
      req_url <- lift (_build_url self series_key start_date end_date detail
                         update_after first_n_observations last_n_observations
                         include_history);;
      response <- (emit (HttpGet (mkRequest req_url None 90));;
                   call (requests_get ext (mkRequest req_url None 90)));;
      connection_handler (OfResponse response);;
      parsed <- call (read_csv ext (text response));;
      let df := frame_of_csv parsed in
      df <- (if bool_decide ("TIME_PERIOD" ∈ columns df) then
               indexed <- lift (set_index (rename df "TIME_PERIOD" "Date") "Date");;
               instants <- call (to_datetime ext (fst (fst indexed)));;
               ret {| index_name := Some "Date";
                      columns := snd (fst indexed);
                      rows := zip (label_of_instant <$> instants) (snd indexed) |}
             else ret df);;
      ret (Some (sort_index ascending df))
  | None => ret None
  end.

End Methods.

(** ** Notions used in the statements *)

(** The query-string term of one optional parameter: [name] followed by the
    value when the value is truthy, nothing otherwise. *)
Definition query_term (name : string) (v : value) : string :=
  if truthy v then name ++ str v else "".

(** A falsy value replaced by an absent one. *)
Definition absent_if_falsy (v : value) : value :=
  if truthy v then v else None_.

(** The response whose status the validator tests: the one it is given, or
    the one that comes with the answer of the client it is given. *)
Definition resolves_to (resp : connector) (r : Response) : Prop :=
  match resp with
  | OfResponse r' => r' = r
  | OfClient c => exists m, query c "dataflow" None = inl m /\ response m = r
  end.

(** The two error-level records written for a status outside the table. *)
Definition unexpected_error_logs (r : Response) : list (level * string) :=
  [ (ERROR, "Unexpected Error: " ++ url r ++ " - " ++ str_headers (headers r));
    (ERROR, "Request Error Code: " ++ pretty (status_code r)) ].

(** The message of the error raised for a status of the table. *)
Definition request_error (code : Z) (msg : string) : exn :=
  Exception ("Request Error Code: " ++ pretty code ++ " - " ++ msg).

(** The steps of [all_data_keys_for_dataflow] that follow validation. *)
Definition keys_of_response (ext : Collaborators) (r : Response) : M (option DataFrame) :=
  df <- call (read_csv ext (text r));;
  ret (Some (frame_of_csv df)).

(** The steps of [get_ecb_data] that follow validation. *)
Definition table_of_response (ext : Collaborators) (ascending : bool) (r : Response)
  : M (option DataFrame) :=
  parsed <- call (read_csv ext (text r));;
  let df := frame_of_csv parsed in
  df <- (if bool_decide ("TIME_PERIOD" ∈ columns df) then
           indexed <- lift (set_index (rename df "TIME_PERIOD" "Date") "Date");;
           instants <- call (to_datetime ext (fst (fst indexed)));;
           ret {| index_name := Some "Date";
                  columns := snd (fst indexed);
                  rows := zip (label_of_instant <$> instants) (snd indexed) |}
         else ret df);;
  ret (Some (sort_index ascending df)).

(** The request [all_data_keys_for_dataflow] sends for a dataflow. *)
Definition bulk_request (dataflow_id : string) : Request :=
  mkRequest ("https://data-api.ecb.europa.eu/service/data/" ++ dataflow_id)
    (Some [ ("Accept", "text/csv") ]) 90.

(** The instance [self] configured with another endpoint. *)
Definition with_endpoint (endpoint : string) (self : ECB_DATA_INFO) : ECB_DATA_INFO :=
  {| proxies := proxies self;
     verify := verify self;
     api_endpoint := endpoint;
     ecb_connection := ecb_connection self;
     all_dataflows := all_dataflows self |}.

(** The error [search_dataflow_dimension_values] raises for a dimension
    that the dataflow does not list. *)
Definition unresolved_dimension (dimension dataflow_id : string) : exn :=
  ValueError ("Dimension '" ++ dimension ++ "' not found in dataflow: " ++ dataflow_id).

(** The steps of [search_dataflow_dimension_values] that follow the check
    of the dimension: the enumerated values are fetched and converted. *)
Definition enumerated_values (ext : Collaborators) (dsd_flow : DataStructureDefinition)
    (dimension : string) : M Series :=
  component <- lift (components_get (dimensions dsd_flow) dimension);;
  dataflow_dimension_values <- lift (get_enumerated component);;
  values_series <- call (to_pandas_enumerated ext dataflow_dimension_values);;
  ret values_series.

(** A call that ends without a value and without an exception. *)
Definition fails_silently {A} (m : M (option A)) : Prop := snd m = Ok None.

(** A case-insensitive substring match of a keyword against a title: both
    sides lowered. *)
Definition matches_ignoring_case (key_word title : string) : bool :=
  str_in (lower key_word) (lower title).

(** The match [search_data_keys_for_dataflow] makes on a title: the keyword
    as given against the lowered title. *)
Definition title_contains (key_word : string) (c : cell) : bool :=
  match c with
  | CStr s => str_in key_word (lower s)
  | _ => false
  end.

Fixpoint has_upper (s : string) : bool :=
  match s with
  | EmptyString => false
  | String c s' => is_upper c || has_upper s'
  end.

Definition lower_text (c : cell) : string :=
  match c with
  | CStr s => lower s
  | _ => ""
  end.

Definition is_text (c : cell) : Prop := exists s, c = CStr s.

(** ** Sample objects *)

Definition sample_response (code : Z) : Response :=
  {| status_code := code;
     url := "https://data-api.ecb.europa.eu/service/data/EXR";
     headers := [ ("Content-Type", "text/csv") ];
     reason := "";
     text := "KEY,TITLE_COMPL" |}.

Definition sample_dsd : DataStructureDefinition :=
  {| dimensions :=
       [ mkComponent "FREQ"
           (Some (mkRepresentation
                    (Some (mkCodelist "CL_FREQ" [ ("A", "Annual"); ("D", "Daily") ]))));
         mkComponent "CURRENCY"
           (Some (mkRepresentation
                    (Some (mkCodelist "CL_CURRENCY" [ ("USD", "US dollar") ]))));
         mkComponent "TIME_PERIOD" (Some (mkRepresentation None)) ];
     attributes := [ mkComponent "TITLE_COMPL" None ];
     measures := [ mkComponent "OBS_VALUE" None ] |}.

Definition sample_message : StructureMessage :=
  {| response := sample_response 200;
     dataflow := {[ "EXR" := mkDataflow "Exchange Rates" sample_dsd ]} |}.

Definition sample_client : Client :=
  {| query := fun _ _ => inl sample_message |}.

Definition sample_table : list string * list (list cell) :=
  ([ "KEY"; "TITLE_COMPL" ],
   [ [ CStr "EXR.D.USD.EUR.SP00.A"; CStr "US dollar/Euro" ];
     [ CStr "EXR.D.GBP.EUR.SP00.A"; CStr "Pound sterling/Euro" ] ]).

(** Collaborators that answer every request with the status [code] and
    parse every body to [sample_table]. *)
Definition sample_ext (code : Z) : Collaborators :=
  {| sdmx_Client := fun _ _ _ => sample_client;
     requests_get := fun _ => inl (sample_response code);
     read_csv := fun _ => inl sample_table;
     to_datetime := fun cells => inl ((fun _ => None) <$> cells);
     to_pandas_dataflows := fun m =>
       inl (mkSeries None ((fun kv => (fst kv, dataflow_name (snd kv))) <$> map_to_list m));
     to_pandas_components := fun cs => inl (component_id <$> cs);
     to_pandas_enumerated := fun cl =>
       match cl with
       | Some c => inl (mkSeries (Some (codelist_name c)) (codes c))
       | None => inr "cannot convert None"
       end |}.

(** Observations with a time-period column, and collaborators that parse
    every body to them; the instants are read off the integer cells. *)
Definition dated_table : list string * list (list cell) :=
  ([ "KEY"; "TIME_PERIOD"; "OBS_VALUE" ],
   [ [ CStr "FM.M"; CInt 20200101; CInt 3 ];
     [ CStr "FM.M"; CInt 20200301; CInt 5 ];
     [ CStr "FM.M"; CInt 20200201; CInt 4 ] ]).

Definition dated_ext : Collaborators :=
  {| sdmx_Client := sdmx_Client (sample_ext 200);
     requests_get := requests_get (sample_ext 200);
     read_csv := fun _ => inl dated_table;
     to_datetime := fun cells =>
       inl ((fun c => match c with CInt n => Some n | _ => None end) <$> cells);
     to_pandas_dataflows := to_pandas_dataflows (sample_ext 200);
     to_pandas_components := to_pandas_components (sample_ext 200);
     to_pandas_enumerated := to_pandas_enumerated (sample_ext 200) |}.

Definition sample_keys : DataFrame :=
  frame_of_csv ([ "KEY"; "TITLE_COMPL" ],
                [ [ CStr "SEE.A.AT.WBR0.EXL.E.E"; CStr "Trade balance" ];
                  [ CStr "SEE.A.AT.WBR0.D00.Z.Q"; CStr "Market capitalisation" ] ]).

Definition sample_self : ECB_DATA_INFO :=
  {| proxies := None;
     verify := None;
     api_endpoint := API_ENDPOINT;
     ecb_connection := sample_client;
     all_dataflows := mkSeries None [ ("EXR", "Exchange Rates");
                                      ("FM", "Financial market data") ] |}.

(** ** The other structure listings *)

Section Listings.

Variable ext : Collaborators.

(** [ECB_DATA_INFO.search_dataflow_attributes] *)
Definition search_dataflow_attributes (self : ECB_DATA_INFO) (dataflow_id : string)
  : M (list string) :=
  metadata_dataflow <- client_dataflow (ecb_connection self) (Some dataflow_id);;
  match dataflow metadata_dataflow !! dataflow_id with
  | None => raise (ValueError ("No DataflowDefinition found for dataflow: " ++ dataflow_id))
  | Some metadata_dataflow_flow =>
      let dsd_flow := structure metadata_dataflow_flow in
      call (to_pandas_components ext (attributes dsd_flow))
  end.

(** [ECB_DATA_INFO.search_dataflow_measures] *)
Definition search_dataflow_measures (self : ECB_DATA_INFO) (dataflow_id : string)
  : M (list string) :=
  metadata_dataflow <- client_dataflow (ecb_connection self) (Some dataflow_id);;
  match dataflow metadata_dataflow !! dataflow_id with
  | None => raise (ValueError ("No DataflowDefinition found for dataflow: " ++ dataflow_id))
  | Some metadata_dataflow_flow =>
      let dsd_flow := structure metadata_dataflow_flow in
      call (to_pandas_components ext (measures dsd_flow))
  end.

End Listings.

(** ** Further notions used in the statements *)

(** The error the structure listings raise for a dataflow identifier that
    the answer of the provider does not hold. *)
Definition unresolved_identifier (dataflow_id : string) : exn :=
  ValueError ("No DataflowDefinition found for dataflow: " ++ dataflow_id).

(** The error of unpacking the parts of a series key without a dot. *)
Definition unpack_error : exn :=
  ValueError "not enough values to unpack (expected 2, got 1)".

(** Rows in the order of [sort_index]: each label before the next. *)
Definition rows_sorted (ascending : bool) (rs : list (label * list cell)) : Prop :=
  Sorted (fun a b => label_le ascending (fst a) (fst b) = true) rs.

(** A parsed CSV whose data rows have as many fields as its header. *)
Definition rectangular (parsed : list string * list (list cell)) : Prop :=
  Forall (fun row => length row = length (fst parsed)) (snd parsed).

(** Text made of ASCII characters only. *)
Fixpoint ascii_text (s : string) : bool :=
  match s with
  | EmptyString => true
  | String c s' => (nat_of_ascii c <? 128)%nat && ascii_text s'
  end.

(** The cell of a data row in the column at position [i]. *)
Definition field_at (i : nat) (row : list cell) : cell := default CNaN (row !! i).

Global Instance label_eq_dec : EqDecision label.
Proof. solve_decision. Defined.

(** A case-insensitive match of a keyword against the title in a cell. *)
Definition title_matches_ignoring_case (key_word : string) (c : cell) : bool :=
  match c with
  | CStr s => matches_ignoring_case key_word s
  | _ => false
  end.

(** ** Further sample objects *)

(** A client whose queries fail, and collaborators that hand it out. *)
Definition failing_client : Client :=
  {| query := fun _ _ => inr "connection refused" |}.

Definition unreachable_ext : Collaborators :=
  {| sdmx_Client := fun _ _ _ => failing_client;
     requests_get := fun _ => inr "timed out";
     read_csv := read_csv (sample_ext 200);
     to_datetime := to_datetime (sample_ext 200);
     to_pandas_dataflows := to_pandas_dataflows (sample_ext 200);
     to_pandas_components := to_pandas_components (sample_ext 200);
     to_pandas_enumerated := to_pandas_enumerated (sample_ext 200) |}.

(** Collaborators whose conversion of the dataflow listing fails. *)
Definition unlisted_ext : Collaborators :=
  {| sdmx_Client := sdmx_Client (sample_ext 200);
     requests_get := requests_get (sample_ext 200);
     read_csv := read_csv (sample_ext 200);
     to_datetime := to_datetime (sample_ext 200);
     to_pandas_dataflows := fun _ => inr "cannot convert the dataflows";
     to_pandas_components := to_pandas_components (sample_ext 200);
     to_pandas_enumerated := to_pandas_enumerated (sample_ext 200) |}.






(** Series keys of which one has no title. *)
Definition gapped_keys : DataFrame :=
  frame_of_csv ([ "KEY"; "TITLE_COMPL" ],
                [ [ CStr "SEE.A.AT.WBR0.EXL.E.E"; CStr "Trade balance" ];
                  [ CStr "SEE.A.AT.WBR0.D00.Z.Q"; CNaN ] ]).

(** * Properties *)

(** Decide a closed proposition by evaluation. *)
Ltac by_evaluation := apply (bool_decide_unpack _); vm_compute; exact I.

(** Split a membership in a literal list into its cases. *)
Ltac in_cases H :=
  repeat (apply elem_of_cons in H as [-> | H]); [.. | by apply elem_of_nil in H].

(** ** Strings *)

Lemma append_cons (c : ascii) (a b : string) : String c a ++ b = String c (a ++ b).
Proof. reflexivity. Qed.

Lemma append_assoc (a b c : string) : (a ++ b) ++ c = a ++ (b ++ c).
Proof.
  induction a as [|x a IH]; [reflexivity |].
  by rewrite !append_cons, IH.
Qed.

Lemma append_empty_r (a : string) : a ++ "" = a.
Proof.
  induction a as [|x a IH]; [reflexivity |].
  by rewrite append_cons, IH.
Qed.

Lemma prefix_append (s t : string) : String.prefix s (s ++ t) = true.
Proof.
  induction s as [|c s IH].
  - by destruct t.
  - rewrite append_cons. simpl. destruct (ascii_dec c c); [exact IH | congruence].
Qed.

Lemma prefix_append_l (s t u : string) :
  String.prefix s t = true -> String.prefix s (t ++ u) = true.
Proof.
  revert t. induction s as [|c s IH]; intros t H.
  - by destruct (t ++ u).
  - destruct t as [|d t]; [discriminate |].
    rewrite append_cons. simpl in *.
    destruct (ascii_dec c d); [by apply IH | discriminate].
Qed.

Lemma str_in_cons (s : string) (c : ascii) (t : string) :
  str_in s (String c t) = String.prefix s (String c t) || str_in s t.
Proof. reflexivity. Qed.

Lemma str_in_append_r (s a t : string) :
  str_in s t = true -> str_in s (a ++ t) = true.
Proof.
  intros H. induction a as [|c a IH]; [exact H |].
  rewrite append_cons, str_in_cons, IH. apply orb_true_r.
Qed.

Lemma str_in_append_l (s t u : string) :
  str_in s t = true -> str_in s (t ++ u) = true.
Proof.
  induction t as [|c t IH]; intros H.
  - destruct s as [|c s]; [by destruct u | discriminate].
  - rewrite str_in_cons in H. apply orb_true_iff in H as [H | H].
    + apply (prefix_append_l _ _ u) in H.
      rewrite append_cons in *. rewrite str_in_cons. by rewrite H.
    + rewrite append_cons, str_in_cons, (IH H). apply orb_true_r.
Qed.

Lemma str_in_refl (s : string) : str_in s s = true.
Proof.
  destruct s as [|c s]; [reflexivity |].
  rewrite str_in_cons.
  rewrite <- (append_empty_r (String c s)) at 2.
  by rewrite prefix_append.
Qed.

(** [s] occurs in any text built around it. *)
Lemma str_in_middle (s a b : string) : str_in s (a ++ s ++ b) = true.
Proof. apply str_in_append_r, str_in_append_l, str_in_refl. Qed.

Lemma split1_first_dot (data_flow rest : string) :
  str_in "." data_flow = false ->
  split1 "." (data_flow ++ "." ++ rest) = [ data_flow; rest ].
Proof.
  induction data_flow as [|c d IH]; intros H; [reflexivity |].
  rewrite str_in_cons in H. apply orb_false_iff in H as [Hc Hd].
  rewrite append_cons. simpl. destruct (Ascii.eqb c ".") eqn:E.
  - apply Ascii.eqb_eq in E. subst c. by destruct d.
  - by rewrite (IH Hd).
Qed.

(** ** The request URL *)

Lemma add_param_term (req_url name : string) (v : value) :
  add_param req_url name v = req_url ++ query_term name v.
Proof.
  unfold add_param, query_term. destruct (truthy v); [reflexivity |].
  by rewrite append_empty_r.
Qed.

Lemma add_param_absent_if_falsy (req_url name : string) (v : value) :
  add_param req_url name (absent_if_falsy v) = add_param req_url name v.
Proof.
  unfold add_param, absent_if_falsy. destruct (truthy v) eqn:E; [by rewrite E | reflexivity].
Qed.

Lemma query_term_falsy (name : string) (v : value) :
  truthy v = false -> query_term name v = "".
Proof. unfold query_term. by intros ->. Qed.

Example build_url_plain :
  _build_url sample_self "FM.M.U2.EUR.RT.MM.EURIBOR1YD_.HSTA"
    None_ None_ None_ None_ None_ None_ None_
  = Ok "https://sdw-wsrest.ecb.europa.eu/service/data/FM/M.U2.EUR.RT.MM.EURIBOR1YD_.HSTA?format=csvdata".
Proof. reflexivity. Qed.

Example build_url_falsy_values :
  _build_url sample_self "FM.M.U2.EUR.RT.MM.EURIBOR1YD_.HSTA"
    (Str "") None_ None_ None_ (Int 0) (Int 12) (Bool_ false)
  = Ok "https://sdw-wsrest.ecb.europa.eu/service/data/FM/M.U2.EUR.RT.MM.EURIBOR1YD_.HSTA?format=csvdata&lastNObservations=12".
Proof. reflexivity. Qed.

Example build_url_without_dot :
  _build_url sample_self "FM" None_ None_ None_ None_ None_ None_ None_
  = Raise (ValueError "not enough values to unpack (expected 2, got 1)").
Proof. reflexivity. Qed.

(** The URL built for a key split at its first dot. *)
Lemma build_url_terms (self : ECB_DATA_INFO) (data_flow rest : string)
    (sd ed det ua fn ln ih : value) :
  str_in "." data_flow = false ->
  _build_url self (data_flow ++ "." ++ rest) sd ed det ua fn ln ih
  = Ok (api_endpoint self ++ "/service/data/" ++ data_flow ++ "/" ++ rest
          ++ "?format=csvdata"
          ++ query_term "&startPeriod=" sd
          ++ query_term "&endPeriod=" ed
          ++ query_term "&detail=" det
          ++ query_term "&updatedAfter=" ua
          ++ query_term "&firstNObservations=" fn
          ++ query_term "&lastNObservations=" ln
          ++ query_term "&includeHistory=" ih).
Proof.
  intros Hdot. unfold _build_url. rewrite (split1_first_dot _ _ Hdot). cbn [unpack2].
  rewrite !add_param_term. f_equal. by rewrite !append_assoc.
Qed.

(** C1. For a series key [<dataflow>.<rest>] whose dataflow part holds no
    dot, [_build_url] returns the endpoint, [/service/data/], the dataflow,
    [/], the rest and [?format=csvdata], followed by the seven optional
    terms in their fixed order, each present exactly when its value is
    truthy and carrying the value as formatted; with no truthy parameter the
    URL ends at [?format=csvdata]. *)
Theorem build_url_shape (self : ECB_DATA_INFO) (data_flow rest : string)
    (sd ed det ua fn ln ih : value) :
  str_in "." data_flow = false ->
  _build_url self (data_flow ++ "." ++ rest) sd ed det ua fn ln ih
  = Ok (api_endpoint self ++ "/service/data/" ++ data_flow ++ "/" ++ rest
          ++ "?format=csvdata"
          ++ query_term "&startPeriod=" sd
          ++ query_term "&endPeriod=" ed
          ++ query_term "&detail=" det
          ++ query_term "&updatedAfter=" ua
          ++ query_term "&firstNObservations=" fn
          ++ query_term "&lastNObservations=" ln
          ++ query_term "&includeHistory=" ih)
  /\ (truthy sd = false -> truthy ed = false -> truthy det = false ->
      truthy ua = false -> truthy fn = false -> truthy ln = false ->
      truthy ih = false ->
      _build_url self (data_flow ++ "." ++ rest) sd ed det ua fn ln ih
      = Ok (api_endpoint self ++ "/service/data/" ++ data_flow ++ "/" ++ rest
              ++ "?format=csvdata")).
Proof.
  intros Hdot. split; [by apply build_url_terms |].
  intros H1 H2 H3 H4 H5 H6 H7. rewrite (build_url_terms _ _ _ _ _ _ _ _ _ _ Hdot).
  rewrite (query_term_falsy _ _ H1), (query_term_falsy _ _ H2),
    (query_term_falsy _ _ H3), (query_term_falsy _ _ H4),
    (query_term_falsy _ _ H5), (query_term_falsy _ _ H6),
    (query_term_falsy _ _ H7).
  by rewrite !append_empty_r.
Qed.

(** C1 at the series key and the parameters of the example of
    [get_ecb_data]. *)
Lemma build_url_shape_witness :
  str_in "." "FM" = false
  /\ _build_url sample_self ("FM" ++ "." ++ "M.U2.EUR.RT.MM.EURIBOR1YD_.HSTA")
       (Str "2020-01-01") (Str "2024-10-23") None_ None_ None_ None_ (Bool_ true)
     = Ok "https://sdw-wsrest.ecb.europa.eu/service/data/FM/M.U2.EUR.RT.MM.EURIBOR1YD_.HSTA?format=csvdata&startPeriod=2020-01-01&endPeriod=2024-10-23&includeHistory=True".
Proof.
  split; [reflexivity |].
  exact (proj1 (build_url_shape sample_self "FM" "M.U2.EUR.RT.MM.EURIBOR1YD_.HSTA"
                  (Str "2020-01-01") (Str "2024-10-23") None_ None_ None_ None_
                  (Bool_ true) eq_refl)).
Defined.

(** C3. Every falsy value of an optional parameter of [_build_url] gives
    the URL, or the failure, that leaving the parameter out gives. *)
Theorem build_url_falsy_is_absent (self : ECB_DATA_INFO) (series_key : string)
    (sd ed det ua fn ln ih : value) :
  _build_url self series_key sd ed det ua fn ln ih
  = _build_url self series_key (absent_if_falsy sd) (absent_if_falsy ed)
      (absent_if_falsy det) (absent_if_falsy ua) (absent_if_falsy fn)
      (absent_if_falsy ln) (absent_if_falsy ih).
Proof.
  unfold _build_url. destruct (unpack2 (split1 "." series_key)) as [[d r]|e]; [| reflexivity].
  cbn zeta. by rewrite !add_param_absent_if_falsy.
Qed.

(** ** The validator *)

Lemma connection_handler_response (r : Response) :
  connection_handler (OfResponse r)
  = if status_code r =? 200 then
      ([ Log INFO ("Connection established with url: " ++ url r
                     ++ " and headers: " ++ str_headers (headers r)) ], Ok tt)
    else match errors_msgs !! status_code r with
         | Some msg => ([], Raise (request_error (status_code r) msg))
         | None =>
             ([ Log ERROR ("Unexpected Error: " ++ url r ++ " - "
                             ++ str_headers (headers r));
                Log ERROR ("Request Error Code: " ++ pretty (status_code r)) ],
              raise_for_status r)
         end.
Proof.
  unfold connection_handler, bind at 1, ret at 1. cbv beta iota.
  destruct (status_code r =? 200); [reflexivity |].
  destruct (errors_msgs !! status_code r); reflexivity.
Qed.

Lemma connection_handler_client (c : Client) (m : StructureMessage) :
  query c "dataflow" None = inl m ->
  connection_handler (OfClient c)
  = (SdmxQuery "dataflow" None :: fst (connection_handler (OfResponse (response m))),
     snd (connection_handler (OfResponse (response m)))).
Proof.
  intros Hq. rewrite connection_handler_response.
  unfold connection_handler, client_dataflow, bind at 1 2 3, emit. rewrite Hq.
  cbv beta iota delta [call ret].
  destruct (status_code (response m) =? 200); [reflexivity |].
  destruct (errors_msgs !! status_code (response m)); reflexivity.
Qed.

(** Outcome and log records of the validator, whichever shape it is given. *)
Lemma connection_handler_resolved (resp : connector) (r : Response) :
  resolves_to resp r ->
  snd (connection_handler resp) = snd (connection_handler (OfResponse r))
  /\ logs (fst (connection_handler resp)) = logs (fst (connection_handler (OfResponse r))).
Proof.
  destruct resp as [r' | c]; simpl.
  - by intros ->.
  - intros (m & Hq & <-). by rewrite (connection_handler_client c m Hq).
Qed.

Lemma errors_msgs_known (code : Z) :
  code ∈ [ 304; 400; 404; 406; 500; 501; 503 ] ->
  exists msg, errors_msgs !! code = Some msg.
Proof.
  intros H. repeat (apply elem_of_cons in H as [-> | H]; [by eexists |]).
  by apply elem_of_nil in H.
Qed.

Lemma errors_msgs_unknown (code : Z) :
  code ∉ [ 304; 400; 404; 406; 500; 501; 503 ] ->
  errors_msgs !! code = None.
Proof. intros H. by apply not_elem_of_list_to_map_1. Qed.

Lemma connection_handler_ok (resp : connector) (r : Response) :
  resolves_to resp r ->
  status_code r = 200 ->
  snd (connection_handler resp) = Ok tt
  /\ logs (fst (connection_handler resp))
     = [ (INFO, "Connection established with url: " ++ url r
                  ++ " and headers: " ++ str_headers (headers r)) ].
Proof.
  intros Hres H200. destruct (connection_handler_resolved resp r Hres) as [-> ->].
  rewrite connection_handler_response, H200. by split.
Qed.

Lemma connection_handler_known (resp : connector) (r : Response) (msg : string) :
  resolves_to resp r ->
  errors_msgs !! status_code r = Some msg ->
  snd (connection_handler resp) = Raise (request_error (status_code r) msg).
Proof.
  intros Hres Hmsg. destruct (connection_handler_resolved resp r Hres) as [-> _].
  rewrite connection_handler_response, Hmsg.
  assert ((status_code r =? 200) = false) as ->; [| reflexivity].
  apply Z.eqb_neq. intros E. rewrite E in Hmsg. discriminate.
Qed.

Lemma connection_handler_unknown (resp : connector) (r : Response) :
  resolves_to resp r ->
  status_code r <> 200 ->
  status_code r ∉ [ 304; 400; 404; 406; 500; 501; 503 ] ->
  logs (fst (connection_handler resp)) = unexpected_error_logs r
  /\ snd (connection_handler resp) = raise_for_status r.
Proof.
  intros Hres Hne Hunknown. destruct (connection_handler_resolved resp r Hres) as [-> ->].
  rewrite connection_handler_response. apply Z.eqb_neq in Hne.
  rewrite Hne, (errors_msgs_unknown _ Hunknown). by split.
Qed.

Lemma request_error_embeds (code : Z) (msg : string) :
  str_in (pretty code) (exn_msg (request_error code msg)) = true
  /\ str_in msg (exn_msg (request_error code msg)) = true.
Proof.
  unfold request_error, exn_msg. split.
  - apply (str_in_middle _ "Request Error Code: " (" - " ++ msg)).
  - apply str_in_append_r, str_in_append_r, str_in_append_r, str_in_refl.
Qed.

(** C2. A response with status 200 passes the validator, which writes one
    informational record; a status of the table makes it raise an error
    whose message holds the status and the message of the table; any other
    status makes it write error-level records and end as the response's own
    [raise_for_status] does. *)
Theorem connection_handler_classifies (resp : connector) (r : Response) :
  resolves_to resp r ->
  (status_code r = 200 ->
     snd (connection_handler resp) = Ok tt
     /\ logs (fst (connection_handler resp))
        = [ (INFO, "Connection established with url: " ++ url r
                     ++ " and headers: " ++ str_headers (headers r)) ])
  /\ (status_code r ∈ [ 304; 400; 404; 406; 500; 501; 503 ] ->
      exists msg,
        errors_msgs !! status_code r = Some msg
        /\ snd (connection_handler resp) = Raise (request_error (status_code r) msg)
        /\ str_in (pretty (status_code r)) (exn_msg (request_error (status_code r) msg)) = true
        /\ str_in msg (exn_msg (request_error (status_code r) msg)) = true)
  /\ (status_code r <> 200 ->
      status_code r ∉ [ 304; 400; 404; 406; 500; 501; 503 ] ->
      logs (fst (connection_handler resp)) = unexpected_error_logs r
      /\ snd (connection_handler resp) = raise_for_status r).
Proof.
  intros Hres. split; [| split].
  - by apply connection_handler_ok.
  - intros Hknown. destruct (errors_msgs_known _ Hknown) as [msg Hmsg].
    exists msg. split; [exact Hmsg |].
    split; [by apply connection_handler_known |]. apply request_error_embeds.
  - by apply connection_handler_unknown.
Qed.

(** C2 at a response with status 404. *)
Lemma connection_handler_classifies_witness :
  resolves_to (OfResponse (sample_response 404)) (sample_response 404)
  /\ snd (connection_handler (OfResponse (sample_response 404)))
     = Raise (request_error 404 "No results found. There are no results matching the query.").
Proof.
  split; [reflexivity |].
  destruct (connection_handler_classifies (OfResponse (sample_response 404))
              (sample_response 404) eq_refl) as (_ & Hknown & _).
  destruct Hknown as (msg & Hmsg & Hraise & _).
  - by_evaluation.
  - vm_compute in Hmsg. injection Hmsg as <-. exact Hraise.
Defined.

Lemma secondary_codes (code : Z) (entry : code_entry) :
  ERROR_CODES_DICT !! code = Some entry ->
  code ∈ [ 400; 401; 410; 403; 404; 405; 406; 409; 415; 500; 502; 503; 504 ].
Proof.
  intros H. apply elem_of_list_to_map_2 in H.
  apply (list_elem_of_fmap_2 fst) in H. exact H.
Qed.

Lemma secondary_codes_split (code : Z) :
  code ∈ [ 400; 401; 410; 403; 404; 405; 406; 409; 415; 500; 502; 503; 504 ] ->
  code ∈ [ 400; 404; 406; 500; 503 ]
  \/ code ∈ [ 401; 403; 405; 409; 410; 415; 502; 504 ].
Proof. intros H. in_cases H; ((left; by_evaluation) || (right; by_evaluation)). Qed.

Lemma shared_codes_known (code : Z) :
  code ∈ [ 400; 404; 406; 500; 503 ] ->
  code ∈ [ 304; 400; 404; 406; 500; 501; 503 ].
Proof. intros H. in_cases H; by_evaluation. Qed.

Lemma config_only_codes (code : Z) :
  code ∈ [ 401; 403; 405; 409; 410; 415; 502; 504 ] ->
  code <> 200 /\ (code ∉ [ 304; 400; 404; 406; 500; 501; 503 ]) /\ (400 <= code < 600).
Proof. intros H. in_cases H; (split; [| split]); solve [by_evaluation | lia]. Qed.

Lemma raise_for_status_error (r : Response) :
  400 <= status_code r < 600 -> exists msg, raise_for_status r = Raise (HTTPError msg).
Proof.
  intros [Hlo Hhi]. unfold raise_for_status.
  destruct (Z.leb_spec 400 (status_code r)); [| lia].
  destruct (Z.ltb_spec (status_code r) 500); [by eexists |].
  destruct (Z.leb_spec 500 (status_code r)); [| lia].
  destruct (Z.ltb_spec (status_code r) 600); [by eexists | lia].
Qed.


(** C5, as stated, fails at a response with status 400: the error raised
    holds the message of the table of the validator, not ["Bad request"]. *)
Lemma connection_handler_ignores_config_table :
  ERROR_CODES_DICT !! status_code (sample_response 400) = Some (mkEntry "Bad request" None_)
  /\ ~ (exists e,
         snd (connection_handler (OfResponse (sample_response 400))) = Raise e
         /\ str_in (pretty 400) (exn_msg e) = true
         /\ str_in "Bad request" (exn_msg e) = true).
Proof.
  split; [reflexivity |].
  intros (e & He & _ & Hmsg).
  vm_compute in He. injection He as <-.
  vm_compute in Hmsg. discriminate.
Qed.

(** C5, amended. For a status of the table of [config.py] the validator
    uses its own table only: on 400, 404, 406, 500 and 503 it raises the
    error made of the status and the message of its own table; on 401, 403,
    405, 409, 410, 415, 502 and 504 it writes the error-level records and
    ends as the response's [raise_for_status] does, with the HTTP error of
    the transport library. *)
Theorem connection_handler_on_config_codes (resp : connector) (r : Response)
    (entry : code_entry) :
  resolves_to resp r ->
  ERROR_CODES_DICT !! status_code r = Some entry ->
  (status_code r ∈ [ 400; 404; 406; 500; 503 ]
   /\ exists msg,
        errors_msgs !! status_code r = Some msg
        /\ snd (connection_handler resp) = Raise (request_error (status_code r) msg))
  \/ (status_code r ∈ [ 401; 403; 405; 409; 410; 415; 502; 504 ]
      /\ logs (fst (connection_handler resp)) = unexpected_error_logs r
      /\ snd (connection_handler resp) = raise_for_status r
      /\ exists msg, raise_for_status r = Raise (HTTPError msg)).
Proof.
  intros Hres Hentry.
  destruct (secondary_codes_split _ (secondary_codes _ _ Hentry)) as [Hin | Hrest].
  - left. split; [exact Hin |].
    destruct (errors_msgs_known _ (shared_codes_known _ Hin)) as [msg Hmsg].
    exists msg. split; [exact Hmsg | by apply connection_handler_known].
  - right. split; [exact Hrest |].
    destruct (config_only_codes _ Hrest) as (Hne & Hunknown & Hrange).
    destruct (connection_handler_unknown resp r Hres Hne Hunknown) as [Hlogs Hsnd].
    repeat split; [exact Hlogs | exact Hsnd |].
    by apply raise_for_status_error.
Qed.

(** C5, amended, at a response with status 502. *)
Lemma connection_handler_on_config_codes_witness :
  resolves_to (OfResponse (sample_response 502)) (sample_response 502)
  /\ ERROR_CODES_DICT !! status_code (sample_response 502) = Some (mkEntry "Bad Gateway" None_)
  /\ snd (connection_handler (OfResponse (sample_response 502)))
     = Raise (HTTPError "502 Server Error:  for url: https://data-api.ecb.europa.eu/service/data/EXR").
Proof.
  split; [reflexivity |]. split; [reflexivity |].
  destruct (connection_handler_on_config_codes (OfResponse (sample_response 502))
              (sample_response 502) (mkEntry "Bad Gateway" None_) eq_refl eq_refl)
    as [(Hin & _) | (_ & _ & Hsnd & _)].
  - exfalso. revert Hin. by_evaluation.
  - rewrite Hsnd. reflexivity.
Defined.

(** ** Sequencing *)

Lemma bind_ok {A B} (es : list event) (a : A) (k : A -> M B) :
  bind (es, Ok a) k = ((es ++ fst (k a))%list, snd (k a)).
Proof. unfold bind. by destruct (k a). Qed.

Lemma bind_raise {A B} (es : list event) (e : exn) (k : A -> M B) :
  bind (es, Raise e) k = (es, Raise e).
Proof. reflexivity. Qed.


Lemma requests_sent_app (es es' : list event) :
  requests_sent (es ++ es') = (requests_sent es ++ requests_sent es')%list.
Proof. unfold requests_sent. apply omap_app. Qed.

(** ** The operations that fetch *)

Section Fetching.

Variable ext : Collaborators.

(** [all_data_keys_for_dataflow] on a listed dataflow, once the transport
    has answered. *)
Lemma all_data_keys_answered (self : ECB_DATA_INFO) (dataflow_id : string) (r : Response) :
  dataflow_id ∈ series_index (all_dataflows self) ->
  requests_get ext (bulk_request dataflow_id) = inl r ->
  all_data_keys_for_dataflow ext self dataflow_id
  = bind (HttpGet (bulk_request dataflow_id) :: fst (connection_handler (OfResponse r)),
          snd (connection_handler (OfResponse r)))
      (fun _ => keys_of_response ext r).
Proof.
  intros Hin Hget. unfold all_data_keys_for_dataflow.
  rewrite (bool_decide_eq_true_2 _ Hin).
  fold (bulk_request dataflow_id). rewrite Hget.
  unfold emit, call, ret. repeat (rewrite bind_ok; cbn [fst snd app]).
  destruct (connection_handler (OfResponse r)) as [es [[] | e]]; cbn [fst snd];
    [rewrite !bind_ok |]; reflexivity.
Qed.

(** [get_ecb_data] on a key, once the URL is built and the transport has
    answered. *)
Lemma get_ecb_data_answered (self : ECB_DATA_INFO) (series_key : string)
    (sd ed det ua fn ln ih : value) (ascending : bool) (req_url : string)
    (r : Response) :
  _build_url self series_key sd ed det ua fn ln ih = Ok req_url ->
  requests_get ext (mkRequest req_url None 90) = inl r ->
  get_ecb_data ext self (Some series_key) sd ed det ua fn ln ih ascending
  = bind (HttpGet (mkRequest req_url None 90) :: fst (connection_handler (OfResponse r)),
          snd (connection_handler (OfResponse r)))
      (fun _ => table_of_response ext ascending r).
Proof.
  intros Hurl Hget. unfold get_ecb_data. rewrite Hurl.
  unfold lift. rewrite bind_ok. cbn [fst snd app].
  rewrite Hget. unfold emit, call, ret. repeat (rewrite bind_ok; cbn [fst snd app]).
  destruct (connection_handler (OfResponse r)) as [es [[] | e]]; cbn [fst snd];
    [rewrite !bind_ok |]; reflexivity.
Qed.

End Fetching.

(** ** Sorting by the default index *)






(** ** Fetching observations *)

Example get_ecb_data_dated_ascending :
  get_ecb_data dated_ext sample_self (Some "FM.M") None_ None_ None_ None_ None_ None_
    None_ true
  = ([ HttpGet (mkRequest "https://sdw-wsrest.ecb.europa.eu/service/data/FM/M?format=csvdata"
                  None 90);
       Log INFO "Connection established with url: https://data-api.ecb.europa.eu/service/data/EXR and headers: {'Content-Type': 'text/csv'}" ],
     Ok (Some {| index_name := Some "Date";
                 columns := [ "KEY"; "OBS_VALUE" ];
                 rows := [ (Timestamp 20200101, [ CStr "FM.M"; CInt 3 ]);
                           (Timestamp 20200201, [ CStr "FM.M"; CInt 4 ]);
                           (Timestamp 20200301, [ CStr "FM.M"; CInt 5 ]) ] |})).
Proof. vm_compute. reflexivity. Qed.

Example get_ecb_data_dated_descending :
  snd (get_ecb_data dated_ext sample_self (Some "FM.M") None_ None_ None_ None_ None_
         None_ None_ false)
  = Ok (Some {| index_name := Some "Date";
                columns := [ "KEY"; "OBS_VALUE" ];
                rows := [ (Timestamp 20200301, [ CStr "FM.M"; CInt 5 ]);
                          (Timestamp 20200201, [ CStr "FM.M"; CInt 4 ]);
                          (Timestamp 20200101, [ CStr "FM.M"; CInt 3 ]) ] |}).
Proof. vm_compute. reflexivity. Qed.

Example init_sample :
  snd (init (sample_ext 200) None None API_ENDPOINT)
  = Ok {| proxies := None; verify := None; api_endpoint := API_ENDPOINT;
          ecb_connection := sample_client;
          all_dataflows := mkSeries None [ ("EXR", "Exchange Rates") ] |}.
Proof. vm_compute. reflexivity. Qed.




(** ** The bulk listing *)

Lemma connection_handler_sends_nothing (r : Response) :
  requests_sent (fst (connection_handler (OfResponse r))) = [].
Proof.
  rewrite connection_handler_response.
  destruct (status_code r =? 200); [reflexivity |].
  destruct (errors_msgs !! status_code r); reflexivity.
Qed.

Lemma all_data_keys_requests (ext : Collaborators) (self : ECB_DATA_INFO)
    (dataflow_id : string) :
  dataflow_id ∈ series_index (all_dataflows self) ->
  requests_sent (fst (all_data_keys_for_dataflow ext self dataflow_id))
  = [ bulk_request dataflow_id ].
Proof.
  intros Hin. destruct (requests_get ext (bulk_request dataflow_id)) as [r | msg] eqn:Hget.
  - rewrite (all_data_keys_answered ext self dataflow_id r Hin Hget).
    pose proof (connection_handler_sends_nothing r) as Hnone.
    destruct (connection_handler (OfResponse r)) as [es [[] | e]]; cbn [fst snd] in *.
    + rewrite bind_ok. cbn [fst]. rewrite requests_sent_app.
      change (requests_sent (HttpGet (bulk_request dataflow_id) :: es))
        with (bulk_request dataflow_id :: requests_sent es).
      rewrite Hnone. unfold keys_of_response.
      destruct (read_csv ext (text r)); reflexivity.
    + rewrite bind_raise. cbn [fst].
      change (requests_sent (HttpGet (bulk_request dataflow_id) :: es))
        with (bulk_request dataflow_id :: requests_sent es).
      by rewrite Hnone.
  - unfold all_data_keys_for_dataflow. rewrite (bool_decide_eq_true_2 _ Hin).
    fold (bulk_request dataflow_id). rewrite Hget. reflexivity.
Qed.

(** C7, as stated, fails on its last clause: [get_ecb_data] given no series
    key also ends without a value and without an exception, and writes no
    log record at all. *)
Lemma get_ecb_data_without_key_is_silent :
  fails_silently (get_ecb_data (sample_ext 200) sample_self None
                    None_ None_ None_ None_ None_ None_ None_ true)
  /\ fst (get_ecb_data (sample_ext 200) sample_self None
            None_ None_ None_ None_ None_ None_ None_ true) = [].
Proof. split; reflexivity. Qed.

(** C7, amended. For a dataflow identifier that the cached listing does
    not hold, [all_data_keys_for_dataflow] writes one error-level record and
    returns no value: it raises nothing and sends no request. It is not the
    only operation to end silently: [get_ecb_data] given no series key
    returns no value either, and does nothing else. *)
Theorem all_data_keys_unlisted (ext : Collaborators) (self : ECB_DATA_INFO)
    (dataflow_id : string) :
  dataflow_id ∉ series_index (all_dataflows self) ->
  all_data_keys_for_dataflow ext self dataflow_id
  = ([ Log ERROR ("Provided dataflow: " ++ dataflow_id ++ " is not existing") ], Ok None)
  /\ fails_silently (all_data_keys_for_dataflow ext self dataflow_id)
  /\ requests_sent (fst (all_data_keys_for_dataflow ext self dataflow_id)) = []
  /\ (forall sd ed det ua fn ln ih ascending,
        get_ecb_data ext self None sd ed det ua fn ln ih ascending = ([], Ok None)).
Proof.
  intros Hout.
  assert (Hcall : all_data_keys_for_dataflow ext self dataflow_id
                  = ([ Log ERROR ("Provided dataflow: " ++ dataflow_id ++ " is not existing") ],
                     Ok None)).
  { unfold all_data_keys_for_dataflow. by rewrite (bool_decide_eq_false_2 _ Hout). }
  rewrite Hcall. repeat split.
Qed.

(** C7, amended, at a dataflow identifier outside the sample listing. *)
Lemma all_data_keys_unlisted_witness :
  ("XYZ" ∉ series_index (all_dataflows sample_self))
  /\ all_data_keys_for_dataflow (sample_ext 200) sample_self "XYZ"
     = ([ Log ERROR "Provided dataflow: XYZ is not existing" ], Ok None).
Proof.
  split; [by_evaluation |].
  apply (all_data_keys_unlisted (sample_ext 200) sample_self "XYZ"). by_evaluation.
Defined.

(** C9. For a dataflow identifier of the cached listing,
    [all_data_keys_for_dataflow] sends exactly one request, to the fixed host
    [https://data-api.ecb.europa.eu], whatever endpoint the instance was
    configured with. The endpoint changes nothing in the bulk listing, the
    dimension listings or the keyword filter; the URL builder is the method
    that reads it. *)
Theorem bulk_listing_ignores_endpoint (ext : Collaborators) (self : ECB_DATA_INFO)
    (dataflow_id : string) :
  dataflow_id ∈ series_index (all_dataflows self) ->
  requests_sent (fst (all_data_keys_for_dataflow ext self dataflow_id))
  = [ mkRequest ("https://data-api.ecb.europa.eu/service/data/" ++ dataflow_id)
        (Some [ ("Accept", "text/csv") ]) 90 ]
  /\ (forall endpoint,
        all_data_keys_for_dataflow ext (with_endpoint endpoint self) dataflow_id
        = all_data_keys_for_dataflow ext self dataflow_id)
  /\ (forall endpoint d,
        search_dataflow_dimensions ext (with_endpoint endpoint self) d
        = search_dataflow_dimensions ext self d)
  /\ (forall endpoint d dimension,
        search_dataflow_dimension_values ext (with_endpoint endpoint self) d dimension
        = search_dataflow_dimension_values ext self d dimension)
  /\ (forall endpoint key_word keys,
        search_data_keys_for_dataflow (with_endpoint endpoint self) key_word keys
        = search_data_keys_for_dataflow self key_word keys)
  /\ (forall endpoint data_flow rest sd ed det ua fn ln ih,
        str_in "." data_flow = false ->
        exists path,
          _build_url (with_endpoint endpoint self) (data_flow ++ "." ++ rest)
            sd ed det ua fn ln ih
          = Ok (endpoint ++ path)).
Proof.
  intros Hin. split; [exact (all_data_keys_requests ext self dataflow_id Hin) |].
  repeat split.
  intros endpoint data_flow rest sd ed det ua fn ln ih Hdot.
  eexists. exact (build_url_terms (with_endpoint endpoint self) data_flow rest
                    sd ed det ua fn ln ih Hdot).
Qed.

(** C9 at the sample instance, configured with its default endpoint. *)
Lemma bulk_listing_ignores_endpoint_witness :
  ("EXR" ∈ series_index (all_dataflows sample_self))
  /\ requests_sent (fst (all_data_keys_for_dataflow (sample_ext 200) sample_self "EXR"))
     = [ mkRequest "https://data-api.ecb.europa.eu/service/data/EXR"
           (Some [ ("Accept", "text/csv") ]) 90 ].
Proof.
  split; [by_evaluation |].
  apply (bulk_listing_ignores_endpoint (sample_ext 200) sample_self "EXR"). by_evaluation.
Defined.

(** ** Dimensions and their values *)

Lemma search_dataflow_dimensions_resolved (ext : Collaborators) (self : ECB_DATA_INFO)
    (dataflow_id : string) (m : StructureMessage) (flow : DataflowDefinition) :
  query (ecb_connection self) "dataflow" (Some dataflow_id) = inl m ->
  dataflow m !! dataflow_id = Some flow ->
  snd (search_dataflow_dimensions ext self dataflow_id)
  = snd (call (to_pandas_components ext (dimensions (structure flow)))).
Proof.
  intros Hq Hflow. unfold search_dataflow_dimensions, client_dataflow, emit.
  rewrite Hq. unfold call at 1, ret. repeat (rewrite bind_ok; cbn [fst snd app]).
  by rewrite Hflow.
Qed.

Lemma search_dataflow_dimension_values_resolved (ext : Collaborators)
    (self : ECB_DATA_INFO) (dataflow_id dimension : string) (m : StructureMessage)
    (flow : DataflowDefinition) (names : list string) :
  query (ecb_connection self) "dataflow" (Some dataflow_id) = inl m ->
  dataflow m !! dataflow_id = Some flow ->
  to_pandas_components ext (dimensions (structure flow)) = inl names ->
  snd (search_dataflow_dimension_values ext self dataflow_id dimension)
  = if bool_decide (dimension ∈ names)
    then snd (enumerated_values ext (structure flow) dimension)
    else Raise (unresolved_dimension dimension dataflow_id).
Proof.
  intros Hq Hflow Hnames.
  unfold search_dataflow_dimension_values, client_dataflow, emit.
  rewrite Hq. unfold call at 1, ret. repeat (rewrite bind_ok; cbn [fst snd app]).
  rewrite Hflow, Hnames. unfold call at 1, ret. rewrite bind_ok. cbn [fst snd app].
  destruct (bool_decide (dimension ∈ names)); reflexivity.
Qed.

(** The steps after the check never raise the error of the check. *)
Lemma enumerated_values_not_unresolved (ext : Collaborators)
    (dsd_flow : DataStructureDefinition) (dimension : string) (msg : string) :
  snd (enumerated_values ext dsd_flow dimension) <> Raise (ValueError msg).
Proof.
  unfold enumerated_values, lift.
  destruct (components_get (dimensions dsd_flow) dimension) as [c | e] eqn:Hget.
  - rewrite bind_ok. cbn [snd]. unfold get_enumerated.
    destruct (local_representation c) as [rep |]; [| discriminate].
    rewrite bind_ok. cbn [snd].
    destruct (to_pandas_enumerated ext (enumerated rep)); discriminate.
  - rewrite bind_raise. cbn [snd]. intros [= ->].
    clear -Hget. induction (dimensions dsd_flow) as [|c cs IH]; [discriminate |].
    cbn [components_get] in Hget. destruct (String.eqb (component_id c) dimension);
      [discriminate | by apply IH].
Qed.

Lemma unresolved_dimension_names (dimension dataflow_id : string) :
  str_in dimension (exn_msg (unresolved_dimension dimension dataflow_id)) = true
  /\ str_in dataflow_id (exn_msg (unresolved_dimension dimension dataflow_id)) = true.
Proof.
  unfold unresolved_dimension, exn_msg. split.
  - apply str_in_middle.
  - apply str_in_append_r, str_in_append_r, str_in_append_r, str_in_refl.
Qed.

(** C8. [search_dataflow_dimension_values] raises the unresolved-dimension
    error, whose message names the dimension and the dataflow, exactly when
    the dataflow resolves to a structure whose dimension list lacks the
    requested name; when the list holds the name the method goes on to
    fetch the enumerated values. So, for every dataflow identifier, each
    name that [search_dataflow_dimensions] returns can be passed to
    [search_dataflow_dimension_values] without that error. *)
Theorem dimension_values_unresolved_iff (ext : Collaborators) (self : ECB_DATA_INFO)
    (dataflow_id : string) :
  (forall dimension,
     (snd (search_dataflow_dimension_values ext self dataflow_id dimension)
      = Raise (unresolved_dimension dimension dataflow_id)
      <-> exists m flow names,
            query (ecb_connection self) "dataflow" (Some dataflow_id) = inl m
            /\ dataflow m !! dataflow_id = Some flow
            /\ to_pandas_components ext (dimensions (structure flow)) = inl names
            /\ dimension ∉ names)
     /\ str_in dimension (exn_msg (unresolved_dimension dimension dataflow_id)) = true
     /\ str_in dataflow_id (exn_msg (unresolved_dimension dimension dataflow_id)) = true)
  /\ (forall dimension m flow names,
        query (ecb_connection self) "dataflow" (Some dataflow_id) = inl m ->
        dataflow m !! dataflow_id = Some flow ->
        to_pandas_components ext (dimensions (structure flow)) = inl names ->
        dimension ∈ names ->
        snd (search_dataflow_dimension_values ext self dataflow_id dimension)
        = snd (enumerated_values ext (structure flow) dimension))
  /\ (forall names dimension,
        snd (search_dataflow_dimensions ext self dataflow_id) = Ok names ->
        dimension ∈ names ->
        snd (search_dataflow_dimension_values ext self dataflow_id dimension)
        <> Raise (unresolved_dimension dimension dataflow_id)).
Proof.
  split; [| split].
  - intros dimension. split; [| apply unresolved_dimension_names]. split.
    + intros Hraise.
      destruct (query (ecb_connection self) "dataflow" (Some dataflow_id))
        as [m | msg] eqn:Hq.
      2: { revert Hraise. unfold search_dataflow_dimension_values, client_dataflow, emit.
           rewrite Hq. discriminate. }
      destruct (dataflow m !! dataflow_id) as [flow |] eqn:Hflow.
      2: { revert Hraise. unfold search_dataflow_dimension_values, client_dataflow, emit.
           rewrite Hq. unfold call, ret. repeat (rewrite bind_ok; cbn [fst snd app]).
           rewrite Hflow. unfold unresolved_dimension, raise. cbn [snd].
           intros H. apply (f_equal (fun r => match r with
                                              | Raise e => String.get 0 (exn_msg e)
                                              | Ok _ => None
                                              end)) in H.
           discriminate H. }
      destruct (to_pandas_components ext (dimensions (structure flow)))
        as [names | msg] eqn:Hnames.
      2: { revert Hraise. unfold search_dataflow_dimension_values, client_dataflow, emit.
           rewrite Hq. unfold call at 1, ret. repeat (rewrite bind_ok; cbn [fst snd app]).
           rewrite Hflow, Hnames. discriminate. }
      exists m, flow, names. repeat split; try done.
      intros Hin.
      rewrite (search_dataflow_dimension_values_resolved ext self dataflow_id dimension
                 m flow names Hq Hflow Hnames) in Hraise.
      rewrite (bool_decide_eq_true_2 _ Hin) in Hraise.
      by apply enumerated_values_not_unresolved in Hraise.
    + intros (m & flow & names & Hq & Hflow & Hnames & Hout).
      rewrite (search_dataflow_dimension_values_resolved ext self dataflow_id dimension
                 m flow names Hq Hflow Hnames).
      by rewrite (bool_decide_eq_false_2 _ Hout).
  - intros dimension m flow names Hq Hflow Hnames Hin.
    rewrite (search_dataflow_dimension_values_resolved ext self dataflow_id dimension
               m flow names Hq Hflow Hnames).
    by rewrite (bool_decide_eq_true_2 _ Hin).
  - intros names dimension Hdims Hin Hraise.
    destruct (query (ecb_connection self) "dataflow" (Some dataflow_id))
      as [m | msg] eqn:Hq.
    2: { revert Hdims. unfold search_dataflow_dimensions, client_dataflow, emit.
         rewrite Hq. discriminate. }
    destruct (dataflow m !! dataflow_id) as [flow |] eqn:Hflow.
    2: { revert Hdims. unfold search_dataflow_dimensions, client_dataflow, emit.
         rewrite Hq. unfold call, ret. repeat (rewrite bind_ok; cbn [fst snd app]).
         rewrite Hflow. discriminate. }
    rewrite (search_dataflow_dimensions_resolved ext self dataflow_id m flow Hq Hflow)
      in Hdims.
    destruct (to_pandas_components ext (dimensions (structure flow)))
      as [names' | msg] eqn:Hnames; [| discriminate].
    injection Hdims as ->.
    rewrite (search_dataflow_dimension_values_resolved ext self dataflow_id dimension
               m flow names Hq Hflow Hnames) in Hraise.
    rewrite (bool_decide_eq_true_2 _ Hin) in Hraise.
    by apply enumerated_values_not_unresolved in Hraise.
Qed.

(** C8 at the sample dataflow: a listed dimension does not raise the
    unresolved-dimension error. *)
Lemma dimension_values_unresolved_iff_witness :
  snd (search_dataflow_dimensions (sample_ext 200) sample_self "EXR")
  = Ok [ "FREQ"; "CURRENCY"; "TIME_PERIOD" ]
  /\ ("FREQ" ∈ [ "FREQ"; "CURRENCY"; "TIME_PERIOD" ])
  /\ snd (search_dataflow_dimension_values (sample_ext 200) sample_self "EXR" "FREQ")
     <> Raise (unresolved_dimension "FREQ" "EXR").
Proof.
  split; [reflexivity |]. split; [by_evaluation |].
  apply (proj2 (proj2 (dimension_values_unresolved_iff (sample_ext 200) sample_self "EXR"))
           [ "FREQ"; "CURRENCY"; "TIME_PERIOD" ] "FREQ"); [reflexivity | by_evaluation].
Defined.

Example dimension_values_listed :
  search_dataflow_dimension_values (sample_ext 200) sample_self "EXR" "FREQ"
  = ([ SdmxQuery "dataflow" (Some "EXR") ],
     Ok (mkSeries (Some "CL_FREQ") [ ("A", "Annual"); ("D", "Daily") ])).
Proof. reflexivity. Qed.

Example dimension_values_unlisted :
  search_dataflow_dimension_values (sample_ext 200) sample_self "EXR" "COUNTRY"
  = ([ SdmxQuery "dataflow" (Some "EXR") ],
     Raise (ValueError "Dimension 'COUNTRY' not found in dataflow: EXR")).
Proof. reflexivity. Qed.

Example dimension_values_not_enumerated :
  search_dataflow_dimension_values (sample_ext 200) sample_self "EXR" "TIME_PERIOD"
  = ([ SdmxQuery "dataflow" (Some "EXR") ], Raise (External "cannot convert None")).
Proof. reflexivity. Qed.

(** ** The keyword filter *)

Lemma elem_of_unique (c : cell) (cells : list cell) : c ∈ unique cells <-> c ∈ cells.
Proof.
  induction cells as [|c' cells IH]; [reflexivity |].
  cbn [unique]. rewrite !elem_of_cons, list_elem_of_filter, IH.
  destruct (decide (c = c')) as [-> | Hne]; [tauto |]. tauto.
Qed.

Lemma map_result_cell_lower (cells : list cell) :
  Forall is_text cells -> map_result cell_lower cells = Ok (lower_text <$> cells).
Proof.
  induction 1 as [|c cells [s ->] _ IH]; [reflexivity |].
  cbn [map_result cell_lower]. by rewrite IH.
Qed.

Lemma filter_ext_elem {A} (P Q : A -> Prop) `{!forall x, Decision (P x)}
    `{!forall x, Decision (Q x)} (l : list A) :
  (forall x, x ∈ l -> P x <-> Q x) -> filter P l = filter Q l.
Proof.
  induction l as [|x l IH]; intros Hext; [reflexivity |].
  rewrite !filter_cons.
  assert (Hx : P x <-> Q x) by (apply Hext, list_elem_of_here).
  rewrite IH by (intros y Hy; apply Hext; by apply list_elem_of_further).
  destruct (decide (P x)), (decide (Q x)); tauto || reflexivity.
Qed.

(** What [search_data_keys_for_dataflow] returns on a table whose titles
    are all text: the rows whose lowered title holds the keyword as given. *)
Lemma search_data_keys_rows (self : ECB_DATA_INFO) (key_word : string)
    (keys : DataFrame) (i : nat) :
  position_of "TITLE_COMPL" (columns keys) = Some i ->
  repeated "TITLE_COMPL" (columns keys) = false ->
  Forall (fun r => is_text (cell_at i r)) (rows keys) ->
  search_data_keys_for_dataflow self key_word keys
  = ([], Ok (reset_index_drop
               {| index_name := index_name keys;
                  columns := columns keys;
                  rows := filter (fun r => title_contains key_word (cell_at i r) = true)
                            (rows keys) |})).
Proof.
  intros Hpos Hrep Htext. unfold search_data_keys_for_dataflow. rewrite Hpos, Hrep.
  assert (Hall : Forall is_text (unique (cell_at i <$> rows keys))).
  { apply Forall_forall. intros c Hc. apply (proj1 (elem_of_unique _ _)) in Hc.
    apply list_elem_of_fmap in Hc as (r & -> & Hr).
    by apply (proj1 (Forall_forall _ _) Htext). }
  rewrite (map_result_cell_lower _ Hall). unfold lift, ret. rewrite bind_ok.
  cbn [fst snd app]. do 4 f_equal.
  apply filter_ext_elem. intros r Hr.
  destruct (proj1 (Forall_forall _ _) Htext r Hr) as [s Hs]. rewrite Hs.
  cbn [title_isin title_contains].
  rewrite bool_decide_eq_true, list_elem_of_filter. split; [tauto |].
  intros Hin. split; [exact Hin |].
  apply list_elem_of_fmap. exists (CStr s). split; [reflexivity |].
  apply (proj2 (elem_of_unique _ _)), list_elem_of_fmap. exists r. by rewrite Hs.
Qed.

Lemma lower_ascii_not_upper (c : ascii) : is_upper (lower_ascii c) = false.
Proof. destruct c as [[] [] [] [] [] [] [] []]; reflexivity. Qed.

Lemma has_upper_lower (s : string) : has_upper (lower s) = false.
Proof.
  induction s as [|c s IH]; [reflexivity |].
  cbn [lower has_upper]. by rewrite lower_ascii_not_upper, IH.
Qed.

Lemma prefix_has_upper (key_word t : string) :
  String.prefix key_word t = true -> has_upper key_word = true -> has_upper t = true.
Proof.
  revert t. induction key_word as [|c k IH]; intros t Hpre Hup; [discriminate |].
  destruct t as [|d t]; [discriminate |]. cbn [String.prefix] in Hpre.
  destruct (ascii_dec c d) as [-> |]; [| discriminate].
  cbn [has_upper] in *. apply orb_true_iff in Hup as [Hup | Hup].
  - by rewrite Hup.
  - rewrite (IH t Hpre Hup). apply orb_true_r.
Qed.

Lemma str_in_has_upper (key_word t : string) :
  str_in key_word t = true -> has_upper key_word = true -> has_upper t = true.
Proof.
  induction t as [|c t IH]; intros Hin Hup.
  - destruct key_word; discriminate.
  - rewrite str_in_cons in Hin. apply orb_true_iff in Hin as [Hin | Hin].
    + by apply (prefix_has_upper key_word).
    + cbn [has_upper]. rewrite (IH Hin Hup). apply orb_true_r.
Qed.

(** A keyword with a capital letter matches no title. *)
Lemma title_contains_capital (key_word : string) (c : cell) :
  has_upper key_word = true -> title_contains key_word c = false.
Proof.
  intros Hup. destruct c as [s | n |]; [| reflexivity | reflexivity].
  cbn [title_contains]. destruct (str_in key_word (lower s)) eqn:Hin; [| reflexivity].
  pose proof (str_in_has_upper _ _ Hin Hup) as H.
  by rewrite has_upper_lower in H.
Qed.

(** A keyword in lower case is matched against the titles with case
    ignored. *)
Lemma title_contains_lower_keyword (key_word s : string) :
  lower key_word = key_word ->
  title_contains key_word (CStr s) = matches_ignoring_case key_word s.
Proof. intros H. unfold matches_ignoring_case. by rewrite H. Qed.

(** On any table of text titles, a keyword with a capital letter selects no
    row. *)
Lemma search_data_keys_capital_selects_nothing (self : ECB_DATA_INFO)
    (key_word : string) (keys : DataFrame) (i : nat) :
  position_of "TITLE_COMPL" (columns keys) = Some i ->
  repeated "TITLE_COMPL" (columns keys) = false ->
  Forall (fun r => is_text (cell_at i r)) (rows keys) ->
  has_upper key_word = true ->
  search_data_keys_for_dataflow self key_word keys
  = ([], Ok {| index_name := None; columns := columns keys; rows := [] |}).
Proof.
  intros Hpos Hrep Htext Hup.
  rewrite (search_data_keys_rows self key_word keys i Hpos Hrep Htext).
  do 2 f_equal. unfold reset_index_drop. cbn [columns rows]. f_equal.
  assert (filter (fun r => title_contains key_word (cell_at i r) = true) (rows keys) = [])
    as ->; [| reflexivity].
  clear Htext. induction (rows keys) as [|r rs IH]; [reflexivity |].
  rewrite filter_cons, IH. rewrite (title_contains_capital key_word (cell_at i r) Hup).
  by destruct (decide (false = true)).
Qed.

(** C6 at a keyword with a capital letter: the title ["Trade balance"]
    matches ["Trade"] when case is ignored, yet the filter returns no row;
    with the keyword in lower case it returns the row. *)
Theorem search_data_keys_capital_keyword :
  matches_ignoring_case "Trade" "Trade balance" = true
  /\ search_data_keys_for_dataflow sample_self "Trade" sample_keys
     = ([], Ok {| index_name := None; columns := [ "KEY"; "TITLE_COMPL" ]; rows := [] |})
  /\ search_data_keys_for_dataflow sample_self "trade" sample_keys
     = ([], Ok {| index_name := None;
                  columns := [ "KEY"; "TITLE_COMPL" ];
                  rows := [ (Position 0, [ CStr "SEE.A.AT.WBR0.EXL.E.E";
                                           CStr "Trade balance" ]) ] |}).
Proof. repeat split; vm_compute; reflexivity. Qed.

(** * Further properties *)

(** ** Series keys and the URL *)

Lemma prefix_dot (c : ascii) (s : string) :
  String.prefix "." (String c s) = Ascii.eqb c ".".
Proof.
  cbn [String.prefix]. destruct (ascii_dec "." c) as [<- | Hne].
  - by destruct s.
  - symmetry. apply Ascii.eqb_neq. congruence.
Qed.

Lemma split1_without_dot (s : string) :
  str_in "." s = false -> split1 "." s = [ s ].
Proof.
  induction s as [|c s IH]; intros H; [reflexivity |].
  rewrite str_in_cons, prefix_dot in H. apply orb_false_iff in H as [Hc Hs].
  cbn [split1]. by rewrite Hc, (IH Hs).
Qed.

Lemma dotted_key_parts (s : string) :
  str_in "." s = true ->
  exists data_flow rest, s = data_flow ++ "." ++ rest /\ str_in "." data_flow = false.
Proof.
  induction s as [|c s IH]; intros H; [discriminate |].
  rewrite str_in_cons, prefix_dot in H.
  destruct (Ascii.eqb c ".") eqn:Hc.
  - apply Ascii.eqb_eq in Hc as ->. by exists "", s.
  - destruct (IH H) as (d & r & -> & Hd). exists (String c d), r. split; [reflexivity |].
    by rewrite str_in_cons, prefix_dot, Hc, Hd.
Qed.

(** X1. [_build_url] raises the unpacking [ValueError] on every series key
    that holds no dot, whatever the optional parameters. *)
Theorem build_url_key_without_dot (self : ECB_DATA_INFO) (series_key : string)
    (sd ed det ua fn ln ih : value) :
  str_in "." series_key = false ->
  _build_url self series_key sd ed det ua fn ln ih = Raise unpack_error.
Proof.
  intros H. unfold _build_url. by rewrite (split1_without_dot _ H).
Qed.

Lemma build_url_key_without_dot_witness :
  str_in "." "EURIBOR1YD_" = false
  /\ _build_url sample_self "EURIBOR1YD_" None_ None_ None_ None_ None_ None_ None_
     = Raise unpack_error.
Proof.
  split; [reflexivity |].
  apply (build_url_key_without_dot sample_self "EURIBOR1YD_"). reflexivity.
Defined.

(** X2. On every series key that holds a dot [_build_url] succeeds: the key
    is cut at its first dot only, so the part before holds no dot, the
    part after keeps its own dots, and the two put back around a dot give
    the key. *)
Theorem build_url_dotted_key (self : ECB_DATA_INFO) (series_key : string)
    (sd ed det ua fn ln ih : value) :
  str_in "." series_key = true ->
  exists data_flow rest,
    series_key = data_flow ++ "." ++ rest
    /\ str_in "." data_flow = false
    /\ _build_url self series_key sd ed det ua fn ln ih
       = Ok (api_endpoint self ++ "/service/data/" ++ data_flow ++ "/" ++ rest
               ++ "?format=csvdata"
               ++ query_term "&startPeriod=" sd
               ++ query_term "&endPeriod=" ed
               ++ query_term "&detail=" det
               ++ query_term "&updatedAfter=" ua
               ++ query_term "&firstNObservations=" fn
               ++ query_term "&lastNObservations=" ln
               ++ query_term "&includeHistory=" ih).
Proof.
  intros H. destruct (dotted_key_parts _ H) as (d & r & -> & Hd).
  exists d, r. split; [reflexivity |]. split; [exact Hd |].
  by apply build_url_terms.
Qed.

Lemma build_url_dotted_key_witness :
  str_in "." "EXR.D.USD.EUR.SP00.A" = true
  /\ exists url,
       _build_url sample_self "EXR.D.USD.EUR.SP00.A" None_ None_ None_ None_ None_
         (Int 3) None_ = Ok url.
Proof.
  split; [reflexivity |].
  destruct (build_url_dotted_key sample_self "EXR.D.USD.EUR.SP00.A" None_ None_ None_
              None_ None_ (Int 3) None_ eq_refl) as (d & r & _ & _ & Hurl).
  eexists. exact Hurl.
Defined.

(** ** The validator: which responses pass *)

Lemma errors_msgs_codes (code : Z) (msg : string) :
  errors_msgs !! code = Some msg -> code ∈ [ 304; 400; 404; 406; 500; 501; 503 ].
Proof.
  intros H. apply elem_of_list_to_map_2 in H.
  apply (list_elem_of_fmap_2 fst) in H. exact H.
Qed.

Lemma errors_msgs_range (code : Z) (msg : string) :
  errors_msgs !! code = Some msg -> code = 304 \/ 400 <= code < 600.
Proof. intros H. apply errors_msgs_codes in H. in_cases H; lia. Qed.

Lemma raise_for_status_ok_iff (r : Response) :
  raise_for_status r = Ok tt <-> status_code r < 400 \/ 600 <= status_code r.
Proof.
  unfold raise_for_status.
  destruct (Z.leb_spec 400 (status_code r)), (Z.ltb_spec (status_code r) 500),
    (Z.leb_spec 500 (status_code r)), (Z.ltb_spec (status_code r) 600);
    cbn [andb]; split; intros Hyp; first [discriminate | reflexivity | lia].
Qed.

(** X3. The validator lets a response through exactly when its status is
    200, or is neither 304 nor a 4xx or 5xx status; for every other status
    it raises. *)
Theorem validator_passes_iff (resp : connector) (r : Response) :
  resolves_to resp r ->
  (snd (connection_handler resp) = Ok tt
   <-> status_code r = 200
       \/ (status_code r <> 304 /\ (status_code r < 400 \/ 600 <= status_code r))).
Proof.
  intros Hres. destruct (connection_handler_resolved resp r Hres) as [-> _].
  rewrite connection_handler_response.
  destruct (Z.eqb_spec (status_code r) 200) as [H200 | Hne]; [by split; [left |] |].
  destruct (errors_msgs !! status_code r) as [msg |] eqn:Hmsg; cbn [snd].
  - split; [discriminate |]. intros [H | [H304 Hrange]]; [done |].
    apply errors_msgs_range in Hmsg. lia.
  - rewrite raise_for_status_ok_iff. split.
    + intros Hrange. right. split; [| exact Hrange].
      intros E. rewrite E in Hmsg. discriminate.
    + intros [H | [_ Hrange]]; [done | exact Hrange].
Qed.

Lemma validator_passes_iff_witness :
  resolves_to (OfResponse (sample_response 204)) (sample_response 204)
  /\ snd (connection_handler (OfResponse (sample_response 204))) = Ok tt
  /\ snd (connection_handler (OfResponse (sample_response 304))) <> Ok tt.
Proof.
  split; [reflexivity |]. split.
  - apply (validator_passes_iff (OfResponse (sample_response 204)) (sample_response 204)
             eq_refl).
    right. cbn. lia.
  - intros H.
    apply (validator_passes_iff (OfResponse (sample_response 304)) (sample_response 304)
             eq_refl) in H.
    cbn in H. lia.
Defined.

(** ** The fetch operations: requests, failures and returned values *)

Lemma table_of_response_outcome (ext : Collaborators) (ascending : bool) (r : Response) :
  fst (table_of_response ext ascending r) = []
  /\ forall o, snd (table_of_response ext ascending r) = Ok o ->
               exists df, o = Some (sort_index ascending df).
Proof.
  unfold table_of_response, call, lift, ret.
  destruct (read_csv ext (text r)) as [parsed | msg]; [| by split].
  rewrite bind_ok. cbn [fst snd app].
  destruct (bool_decide ("TIME_PERIOD" ∈ columns (frame_of_csv parsed))).
  - destruct (set_index (rename (frame_of_csv parsed) "TIME_PERIOD" "Date") "Date")
      as [indexed | e]; [| by split].
    rewrite bind_ok. cbn [fst snd app].
    destruct (to_datetime ext (fst (fst indexed))) as [instants | msg]; [| by split].
    split; [reflexivity |]. intros o [= <-]. by eexists.
  - split; [reflexivity |]. intros o [= <-]. by eexists.
Qed.

Lemma keys_of_response_outcome (ext : Collaborators) (r : Response) :
  fst (keys_of_response ext r) = []
  /\ forall o, snd (keys_of_response ext r) = Ok o ->
               exists parsed, read_csv ext (text r) = inl parsed
                              /\ o = Some (frame_of_csv parsed).
Proof.
  unfold keys_of_response, call, ret.
  destruct (read_csv ext (text r)) as [parsed | msg]; [| by split].
  split; [reflexivity |]. intros o [= <-]. by eexists.
Qed.

(** What lies behind a value returned by [get_ecb_data]. *)
Lemma get_ecb_data_returned (ext : Collaborators) (self : ECB_DATA_INFO)
    (series_key : option string) (sd ed det ua fn ln ih : value) (ascending : bool)
    (o : option DataFrame) :
  snd (get_ecb_data ext self series_key sd ed det ua fn ln ih ascending) = Ok o ->
  (series_key = None /\ o = None)
  \/ exists key req_url r,
       series_key = Some key
       /\ _build_url self key sd ed det ua fn ln ih = Ok req_url
       /\ requests_get ext (mkRequest req_url None 90) = inl r
       /\ snd (connection_handler (OfResponse r)) = Ok tt
       /\ snd (table_of_response ext ascending r) = Ok o.
Proof.
  destruct series_key as [key |]; [| intros [= <-]; by left].
  intros H. right.
  destruct (_build_url self key sd ed det ua fn ln ih) as [req_url | e] eqn:Hurl.
  2: { revert H. unfold get_ecb_data. rewrite Hurl. discriminate. }
  destruct (requests_get ext (mkRequest req_url None 90)) as [r | msg] eqn:Hget.
  2: { revert H. unfold get_ecb_data. rewrite Hurl. unfold lift. rewrite bind_ok.
       cbn [fst snd app]. rewrite Hget. discriminate. }
  rewrite (get_ecb_data_answered ext self key sd ed det ua fn ln ih ascending req_url r
             Hurl Hget) in H.
  destruct (connection_handler (OfResponse r)) as [es [[] | e]] eqn:Hch;
    cbn [fst snd] in H; [| discriminate].
  rewrite bind_ok in H. cbn [snd] in H.
  exists key, req_url, r. by rewrite Hch.
Qed.

(** What lies behind a value returned by [all_data_keys_for_dataflow]. *)
Lemma all_data_keys_returned (ext : Collaborators) (self : ECB_DATA_INFO)
    (dataflow_id : string) (o : option DataFrame) :
  snd (all_data_keys_for_dataflow ext self dataflow_id) = Ok o ->
((dataflow_id ∉ series_index (all_dataflows self)) /\ o = None)
  \/ exists r,
       dataflow_id ∈ series_index (all_dataflows self)
       /\ requests_get ext (bulk_request dataflow_id) = inl r
       /\ snd (connection_handler (OfResponse r)) = Ok tt
       /\ snd (keys_of_response ext r) = Ok o.
Proof.
  intros H.
  destruct (decide (dataflow_id ∈ series_index (all_dataflows self))) as [Hin | Hout].
  2: { left. split; [exact Hout |]. revert H. unfold all_data_keys_for_dataflow.
       rewrite (bool_decide_eq_false_2 _ Hout). by intros [= <-]. }
  right.
  destruct (requests_get ext (bulk_request dataflow_id)) as [r | msg] eqn:Hget.
  2: { revert H. unfold all_data_keys_for_dataflow. rewrite (bool_decide_eq_true_2 _ Hin).
       fold (bulk_request dataflow_id). rewrite Hget. discriminate. }
  rewrite (all_data_keys_answered ext self dataflow_id r Hin Hget) in H.
  destruct (connection_handler (OfResponse r)) as [es [[] | e]] eqn:Hch;
    cbn [fst snd] in H; [| discriminate].
  rewrite bind_ok in H. cbn [snd] in H.
  exists r. by rewrite Hch.
Qed.

(** X4. [get_ecb_data] sends at most one request: none when it is given no
    key or a key without a dot, and otherwise exactly the URL that
    [_build_url] returns, without headers and with a timeout of 90, whatever
    happens after the request is sent. *)
Theorem get_ecb_data_requests (ext : Collaborators) (self : ECB_DATA_INFO)
    (series_key : option string) (sd ed det ua fn ln ih : value) (ascending : bool) :
  requests_sent (fst (get_ecb_data ext self series_key sd ed det ua fn ln ih ascending))
  = match series_key with
    | None => []
    | Some key =>
        match _build_url self key sd ed det ua fn ln ih with
        | Ok req_url => [ mkRequest req_url None 90 ]
        | Raise _ => []
        end
    end.
Proof.
  destruct series_key as [key |]; [| reflexivity].
  destruct (_build_url self key sd ed det ua fn ln ih) as [req_url | e] eqn:Hurl.
  2: { unfold get_ecb_data. by rewrite Hurl. }
  destruct (requests_get ext (mkRequest req_url None 90)) as [r | msg] eqn:Hget.
  2: { unfold get_ecb_data. rewrite Hurl. unfold lift. rewrite bind_ok.
       cbn [fst snd app]. by rewrite Hget. }
  rewrite (get_ecb_data_answered ext self key sd ed det ua fn ln ih ascending req_url r
             Hurl Hget).
  pose proof (connection_handler_sends_nothing r) as Hnone.
  destruct (connection_handler (OfResponse r)) as [es [[] | e]]; cbn [fst snd] in *.
  - rewrite bind_ok. cbn [fst].
    rewrite (proj1 (table_of_response_outcome ext ascending r)), app_nil_r.
    change (requests_sent (HttpGet (mkRequest req_url None 90) :: es))
      with (mkRequest req_url None 90 :: requests_sent es).
    by rewrite Hnone.
  - rewrite bind_raise. cbn [fst].
    change (requests_sent (HttpGet (mkRequest req_url None 90) :: es))
      with (mkRequest req_url None 90 :: requests_sent es).
    by rewrite Hnone.
Qed.

(** X5. [get_ecb_data] returns no value exactly when it is given no series
    key: with a key it returns a table or raises. *)
Theorem get_ecb_data_none_iff (ext : Collaborators) (self : ECB_DATA_INFO)
    (series_key : option string) (sd ed det ua fn ln ih : value) (ascending : bool) :
  snd (get_ecb_data ext self series_key sd ed det ua fn ln ih ascending) = Ok None
  <-> series_key = None.
Proof.
  split; [| by intros ->].
  intros H. apply get_ecb_data_returned in H as [[Hkey _] | H]; [exact Hkey |].
  destruct H as (key & req_url & r & _ & _ & _ & _ & Htable).
  apply (proj2 (table_of_response_outcome ext ascending r)) in Htable as [df Hdf].
  discriminate.
Qed.

(** X6. [all_data_keys_for_dataflow] returns no value exactly when the
    dataflow identifier is not in the cached listing: for a listed
    identifier it returns a table or raises. *)
Theorem all_data_keys_none_iff (ext : Collaborators) (self : ECB_DATA_INFO)
    (dataflow_id : string) :
  snd (all_data_keys_for_dataflow ext self dataflow_id) = Ok None
  <-> dataflow_id ∉ series_index (all_dataflows self).
Proof.
  split.
  - intros H. apply all_data_keys_returned in H as [[Hout _] | H]; [exact Hout |].
    destruct H as (r & _ & _ & _ & Hkeys).
    apply (proj2 (keys_of_response_outcome ext r)) in Hkeys as (parsed & _ & Hdf).
    discriminate.
  - intros Hout. unfold all_data_keys_for_dataflow.
    by rewrite (bool_decide_eq_false_2 _ Hout).
Qed.

(** X7. A table comes back from either fetch operation only for a response
    that passed the validator: its status is 200, or is neither 304 nor a
    4xx or 5xx status. *)
Theorem fetched_table_was_validated (ext : Collaborators) (self : ECB_DATA_INFO)
    (df : DataFrame) :
  (forall series_key sd ed det ua fn ln ih ascending,
     snd (get_ecb_data ext self series_key sd ed det ua fn ln ih ascending) = Ok (Some df) ->
     exists key req_url r,
       series_key = Some key
       /\ _build_url self key sd ed det ua fn ln ih = Ok req_url
       /\ requests_get ext (mkRequest req_url None 90) = inl r
       /\ (status_code r = 200
           \/ (status_code r <> 304 /\ (status_code r < 400 \/ 600 <= status_code r))))
  /\ (forall dataflow_id,
        snd (all_data_keys_for_dataflow ext self dataflow_id) = Ok (Some df) ->
        exists r,
          requests_get ext (bulk_request dataflow_id) = inl r
          /\ (status_code r = 200
              \/ (status_code r <> 304 /\ (status_code r < 400 \/ 600 <= status_code r)))).
Proof.
  assert (Hpass : forall r, snd (connection_handler (OfResponse r)) = Ok tt ->
                    status_code r = 200
                    \/ (status_code r <> 304
                        /\ (status_code r < 400 \/ 600 <= status_code r))).
  { intros r Hok. revert Hok. rewrite connection_handler_response.
    destruct (Z.eqb_spec (status_code r) 200) as [H200 | Hne]; [by left |].
    destruct (errors_msgs !! status_code r) as [msg |] eqn:Hmsg; cbn [snd];
      [discriminate |].
    intros Hok. right. split; [| by apply raise_for_status_ok_iff].
    intros E. rewrite E in Hmsg. discriminate. }
  split.
  - intros series_key sd ed det ua fn ln ih ascending H.
    apply get_ecb_data_returned in H as [[_ [=]] | H].
    destruct H as (key & req_url & r & Hkey & Hurl & Hget & Hok & _).
    exists key, req_url, r. repeat split; try done. by apply Hpass.
  - intros dataflow_id H.
    apply all_data_keys_returned in H as [[_ [=]] | H].
    destruct H as (r & _ & Hget & Hok & _).
    exists r. split; [exact Hget | by apply Hpass].
Qed.

Lemma fetched_table_was_validated_witness :
  snd (all_data_keys_for_dataflow (sample_ext 200) sample_self "EXR")
  = Ok (Some (frame_of_csv sample_table))
  /\ exists r, requests_get (sample_ext 200) (bulk_request "EXR") = inl r
               /\ (status_code r = 200
                   \/ (status_code r <> 304
                       /\ (status_code r < 400 \/ 600 <= status_code r))).
Proof.
  split; [reflexivity |].
  apply (proj2 (fetched_table_was_validated (sample_ext 200) sample_self
                  (frame_of_csv sample_table)) "EXR").
  reflexivity.
Defined.

(** X8. When the response carries a status of the table of the validator,
    both fetch operations raise the error of the validator, made of the
    status and the table message; the body is never parsed. *)
Theorem fetch_fails_on_known_status (ext : Collaborators) (self : ECB_DATA_INFO)
    (r : Response) (msg : string) :
  errors_msgs !! status_code r = Some msg ->
  (forall dataflow_id,
     dataflow_id ∈ series_index (all_dataflows self) ->
     requests_get ext (bulk_request dataflow_id) = inl r ->
     all_data_keys_for_dataflow ext self dataflow_id
     = ([ HttpGet (bulk_request dataflow_id) ],
        Raise (request_error (status_code r) msg)))
  /\ (forall key sd ed det ua fn ln ih ascending req_url,
        _build_url self key sd ed det ua fn ln ih = Ok req_url ->
        requests_get ext (mkRequest req_url None 90) = inl r ->
        get_ecb_data ext self (Some key) sd ed det ua fn ln ih ascending
        = ([ HttpGet (mkRequest req_url None 90) ],
           Raise (request_error (status_code r) msg))).
Proof.
  intros Hmsg.
  assert (Hch : connection_handler (OfResponse r)
                = ([], Raise (request_error (status_code r) msg))).
  { rewrite connection_handler_response, Hmsg.
    assert ((status_code r =? 200) = false) as ->; [| reflexivity].
    apply Z.eqb_neq. intros E. rewrite E in Hmsg. discriminate. }
  split.
  - intros dataflow_id Hin Hget.
    rewrite (all_data_keys_answered ext self dataflow_id r Hin Hget), Hch. reflexivity.
  - intros key sd ed det ua fn ln ih ascending req_url Hurl Hget.
    rewrite (get_ecb_data_answered ext self key sd ed det ua fn ln ih ascending req_url r
               Hurl Hget), Hch. reflexivity.
Qed.

Lemma fetch_fails_on_known_status_witness :
  errors_msgs !! status_code (sample_response 404)
  = Some "No results found. There are no results matching the query."
  /\ all_data_keys_for_dataflow (sample_ext 404) sample_self "EXR"
     = ([ HttpGet (bulk_request "EXR") ],
        Raise (Exception "Request Error Code: 404 - No results found. There are no results matching the query.")).
Proof.
  split; [reflexivity |].
  apply (proj1 (fetch_fails_on_known_status (sample_ext 404) sample_self
                  (sample_response 404)
                  "No results found. There are no results matching the query." eq_refl)
           "EXR"); [by_evaluation | reflexivity].
Defined.

(** X9. When the transport fails, both fetch operations end with the error
    of the transport right after the one request: nothing is logged and
    nothing is validated or parsed. *)
Theorem fetch_fails_with_transport (ext : Collaborators) (self : ECB_DATA_INFO)
    (msg : string) :
  (forall dataflow_id,
     dataflow_id ∈ series_index (all_dataflows self) ->
     requests_get ext (bulk_request dataflow_id) = inr msg ->
     all_data_keys_for_dataflow ext self dataflow_id
     = ([ HttpGet (bulk_request dataflow_id) ], Raise (External msg)))
  /\ (forall key sd ed det ua fn ln ih ascending req_url,
        _build_url self key sd ed det ua fn ln ih = Ok req_url ->
        requests_get ext (mkRequest req_url None 90) = inr msg ->
        get_ecb_data ext self (Some key) sd ed det ua fn ln ih ascending
        = ([ HttpGet (mkRequest req_url None 90) ], Raise (External msg))).
Proof.
  split.
  - intros dataflow_id Hin Hget. unfold all_data_keys_for_dataflow.
    rewrite (bool_decide_eq_true_2 _ Hin). fold (bulk_request dataflow_id).
    by rewrite Hget.
  - intros key sd ed det ua fn ln ih ascending req_url Hurl Hget.
    unfold get_ecb_data. rewrite Hurl. unfold lift. rewrite bind_ok.
    cbn [fst snd app]. by rewrite Hget.
Qed.

Lemma fetch_fails_with_transport_witness :
  ("EXR" ∈ series_index (all_dataflows sample_self))
  /\ requests_get unreachable_ext (bulk_request "EXR") = inr "timed out"
  /\ all_data_keys_for_dataflow unreachable_ext sample_self "EXR"
     = ([ HttpGet (bulk_request "EXR") ], Raise (External "timed out")).
Proof.
  split; [by_evaluation |]. split; [reflexivity |].
  apply (proj1 (fetch_fails_with_transport unreachable_ext sample_self "timed out") "EXR");
    [by_evaluation | reflexivity].
Defined.

(** ** The order and the rows of a fetched table *)

Lemma label_le_total (ascending : bool) (a b : label) :
  label_le ascending a b = false -> label_le ascending b a = true.
Proof.
  unfold label_le. destruct (label_key a) as [x |], (label_key b) as [y |];
    try done. destruct ascending; intros H; apply Z.leb_gt in H; apply Z.leb_le; lia.
Qed.

Lemma insert_row_sorted (ascending : bool) (r : label * list cell)
    (sorted : list (label * list cell)) :
  rows_sorted ascending sorted -> rows_sorted ascending (insert_row ascending r sorted).
Proof.
  unfold rows_sorted. induction sorted as [|r' rest IH]; intros Hs.
  - repeat constructor.
  - cbn [insert_row]. destruct (label_le ascending (fst r) (fst r')) eqn:Hle.
    + constructor; [exact Hs | by constructor].
    + apply Sorted_inv in Hs as [Hrest Hhd]. constructor; [by apply IH |].
      destruct rest as [|r'' rest]; cbn [insert_row].
      * constructor. by apply label_le_total.
      * destruct (label_le ascending (fst r) (fst r'')).
        -- constructor. by apply label_le_total.
        -- constructor. by apply HdRel_inv in Hhd.
Qed.

Lemma sort_index_sorted (ascending : bool) (df : DataFrame) :
  rows_sorted ascending (rows (sort_index ascending df)).
Proof.
  unfold sort_index. cbn [rows]. induction (rows df) as [|r rs IH].
  - constructor.
  - cbn [foldr]. by apply insert_row_sorted.
Qed.



(** X10. Every table that [get_ecb_data] returns has its rows in the order
    of its index: ascending or descending as asked, with the missing
    instants last. *)
Theorem get_ecb_data_sorted (ext : Collaborators) (self : ECB_DATA_INFO)
    (series_key : option string) (sd ed det ua fn ln ih : value) (ascending : bool)
    (df : DataFrame) :
  snd (get_ecb_data ext self series_key sd ed det ua fn ln ih ascending) = Ok (Some df) ->
  rows_sorted ascending (rows df).
Proof.
  intros H. apply get_ecb_data_returned in H as [[_ [=]] | H].
  destruct H as (key & req_url & r & _ & _ & _ & _ & Htable).
  apply (proj2 (table_of_response_outcome ext ascending r)) in Htable as [df' [= ->]].
  apply sort_index_sorted.
Qed.

Lemma get_ecb_data_sorted_witness :
  (exists df,
     snd (get_ecb_data dated_ext sample_self (Some "FM.M") None_ None_ None_ None_ None_
            None_ None_ false) = Ok (Some df)
     /\ rows_sorted false (rows df)).
Proof.
  eexists. split; [vm_compute; reflexivity |].
  apply (get_ecb_data_sorted dated_ext sample_self (Some "FM.M") None_ None_ None_ None_
           None_ None_ None_ false).
  vm_compute. reflexivity.
Defined.






Lemma range_index_data (start : Z) (data : list (list cell)) :
  snd <$> range_index start data = data.
Proof.
  revert start. induction data as [|d data IH]; intros start; [reflexivity |].
  cbn [range_index]. rewrite fmap_cons. by rewrite IH.
Qed.





(** ** Construction of the instance *)

(** X12. When the provider answers the dataflow query with status 200 and
    the listing converts, [__init__] asks the client for the dataflows
    twice, once for the validator and once for the listing, writes one
    informational record in between, and stores the client made for ["ECB"]
    with the given proxies and verification flag, the listing, and the
    endpoint as given. *)
Theorem init_connects (ext : Collaborators) (proxies : option (list (string * string)))
    (verify : option bool) (endpoint : string) (m : StructureMessage) (listing : Series) :
  query (sdmx_Client ext "ECB" proxies verify) "dataflow" None = inl m ->
  status_code (response m) = 200 ->
  to_pandas_dataflows ext (dataflow m) = inl listing ->
  init ext proxies verify endpoint
  = ([ SdmxQuery "dataflow" None;
       Log INFO ("Connection established with url: " ++ url (response m)
                   ++ " and headers: " ++ str_headers (headers (response m)));
       SdmxQuery "dataflow" None ],
     Ok {| proxies := proxies;
           verify := verify;
           api_endpoint := endpoint;
           ecb_connection := sdmx_Client ext "ECB" proxies verify;
           all_dataflows := listing |}).
Proof.
  intros Hq H200 Hlist. unfold init, ecb_connect. cbv zeta.
  rewrite (connection_handler_client _ m Hq), connection_handler_response, H200.
  cbn [Z.eqb Pos.eqb]. unfold client_dataflow, emit. rewrite Hq.
  cbv beta iota delta [bind call ret fst snd app]. rewrite Hlist.
  reflexivity.
Qed.

Lemma init_connects_witness :
  (query (sdmx_Client (sample_ext 200) "ECB" None (Some true)) "dataflow" None
   = inl sample_message
   /\ status_code (response sample_message) = 200)
  /\ snd (init (sample_ext 200) None (Some true) "https://data-api.ecb.europa.eu")
     = Ok {| proxies := None;
             verify := Some true;
             api_endpoint := "https://data-api.ecb.europa.eu";
             ecb_connection := sample_client;
             all_dataflows := mkSeries None [ ("EXR", "Exchange Rates") ] |}.
Proof.
  split; [split; reflexivity |].
  rewrite (init_connects (sample_ext 200) None (Some true) "https://data-api.ecb.europa.eu"
             sample_message (mkSeries None [ ("EXR", "Exchange Rates") ]));
    [reflexivity | reflexivity | reflexivity | vm_compute; reflexivity].
Defined.

(** X13. Construction fails with the error of the library, and makes no
    instance, when the dataflow query of the validator fails, after that one
    query, and when the query is answered with status 200 but the listing
    does not convert, after both queries and the informational record. *)
Theorem init_fails_unvalidated (ext : Collaborators)
    (proxies : option (list (string * string))) (verify : option bool)
    (endpoint : string) :
  (forall msg,
     query (sdmx_Client ext "ECB" proxies verify) "dataflow" None = inr msg ->
     init ext proxies verify endpoint
     = ([ SdmxQuery "dataflow" None ], Raise (External msg)))
  /\ (forall m msg,
        query (sdmx_Client ext "ECB" proxies verify) "dataflow" None = inl m ->
        status_code (response m) = 200 ->
        to_pandas_dataflows ext (dataflow m) = inr msg ->
        init ext proxies verify endpoint
        = ([ SdmxQuery "dataflow" None;
             Log INFO ("Connection established with url: " ++ url (response m)
                         ++ " and headers: " ++ str_headers (headers (response m)));
             SdmxQuery "dataflow" None ],
           Raise (External msg))).
Proof.
  split.
  - intros msg Hq. unfold init, ecb_connect, connection_handler, client_dataflow, emit.
    by rewrite Hq.
  - intros m msg Hq H200 Hlist. unfold init, ecb_connect. cbv zeta.
    rewrite (connection_handler_client _ m Hq), connection_handler_response, H200.
    cbn [Z.eqb Pos.eqb]. unfold client_dataflow, emit. rewrite Hq.
    cbv beta iota delta [bind call ret fst snd app]. rewrite Hlist.
    reflexivity.
Qed.

Lemma init_fails_unvalidated_witness :
  init unreachable_ext None None API_ENDPOINT
  = ([ SdmxQuery "dataflow" None ], Raise (External "connection refused"))
  /\ snd (init unlisted_ext None None API_ENDPOINT)
     = Raise (External "cannot convert the dataflows").
Proof.
  split.
  - apply (proj1 (init_fails_unvalidated unreachable_ext None None API_ENDPOINT)).
    reflexivity.
  - rewrite (proj2 (init_fails_unvalidated unlisted_ext None None API_ENDPOINT)
               sample_message "cannot convert the dataflows");
      reflexivity.
Defined.

(** X14. The endpoint given to [__init__] is stored and nothing else: the
    connection, the events and the failures of the construction are the
    same for every endpoint. *)
Theorem init_stores_endpoint (ext : Collaborators)
    (proxies : option (list (string * string))) (verify : option bool)
    (endpoint endpoint' : string) :
  init ext proxies verify endpoint'
  = bind (init ext proxies verify endpoint) (fun self => ret (with_endpoint endpoint' self)).
Proof.
  unfold init. destruct (ecb_connect ext proxies verify) as [es [[c listing] | e]].
  - rewrite !bind_ok. cbn [fst snd]. unfold ret, with_endpoint. cbn.
    by rewrite !app_nil_r.
  - reflexivity.
Qed.

(** ** The keyword filter: errors, bounds and repetition *)

Lemma str_in_empty (s : string) : str_in "" s = true.
Proof. by destruct s. Qed.

Lemma filter_all {A} (P : A -> Prop) `{!forall x, Decision (P x)} (l : list A) :
  Forall P l -> filter P l = l.
Proof.
  induction 1 as [|x l Hx _ IH]; [reflexivity |].
  rewrite filter_cons, IH. by destruct (decide (P x)).
Qed.

Lemma range_index_forall (Q : list cell -> Prop) (start : Z) (data : list (list cell)) :
  Forall Q data -> Forall (fun r => Q (snd r)) (range_index start data).
Proof.
  intros H. revert start. induction H as [|d data Hd _ IH]; intros start.
  - constructor.
  - cbn [range_index]. constructor; [exact Hd | apply IH].
Qed.

Lemma map_result_cell_lower_raises (cells : list cell) (c : cell) :
  c ∈ cells -> ~ is_text c ->
  exists msg, map_result cell_lower cells = Raise (AttributeError msg).
Proof.
  induction cells as [|c' cells IH]; intros Hin Hc; [by apply elem_of_nil in Hin |].
  cbn [map_result]. destruct c' as [s | n |]; cbn [cell_lower]; [| by eexists ..].
  apply elem_of_cons in Hin as [-> | Hin]; [exfalso; apply Hc; by eexists |].
  destruct (IH Hin Hc) as [msg ->]. by eexists.
Qed.

(** X15. With the empty keyword the filter keeps every row of a table that
    has one column named [TITLE_COMPL] and whose titles are all text: it
    returns the table renumbered from 0. *)
Theorem search_data_keys_empty_keyword (self : ECB_DATA_INFO) (keys : DataFrame)
    (i : nat) :
  position_of "TITLE_COMPL" (columns keys) = Some i ->
  repeated "TITLE_COMPL" (columns keys) = false ->
  Forall (fun r => is_text (cell_at i r)) (rows keys) ->
  search_data_keys_for_dataflow self "" keys = ([], Ok (reset_index_drop keys)).
Proof.
  intros Hpos Hrep Htext. rewrite (search_data_keys_rows self "" keys i Hpos Hrep Htext).
  do 2 f_equal. unfold reset_index_drop. cbn [columns rows]. do 3 f_equal.
  apply filter_all. apply Forall_forall. intros r Hr.
  destruct (proj1 (Forall_forall _ _) Htext r Hr) as [s ->].
  apply str_in_empty.
Qed.

Lemma search_data_keys_empty_keyword_witness :
  (position_of "TITLE_COMPL" (columns sample_keys) = Some 1%nat
   /\ repeated "TITLE_COMPL" (columns sample_keys) = false
   /\ Forall (fun r => is_text (cell_at 1 r)) (rows sample_keys))
  /\ search_data_keys_for_dataflow sample_self "" sample_keys = ([], Ok sample_keys).
Proof.
  assert (Htext : Forall (fun r => is_text (cell_at 1 r)) (rows sample_keys)).
  { repeat constructor; by eexists. }
  split; [split; [reflexivity | split; [reflexivity | exact Htext]] |].
  exact (search_data_keys_empty_keyword sample_self sample_keys 1 eq_refl eq_refl Htext).
Defined.

(** X16. The filter fails with an [AttributeError], whatever the keyword,
    when the table has no [TITLE_COMPL] column and when a single row has a
    title that is not text, such as a missing title. *)
Theorem search_data_keys_fails (self : ECB_DATA_INFO) (key_word : string)
    (keys : DataFrame) :
  (position_of "TITLE_COMPL" (columns keys) = None ->
   exists msg, search_data_keys_for_dataflow self key_word keys
               = ([], Raise (AttributeError msg)))
  /\ (forall i r,
        position_of "TITLE_COMPL" (columns keys) = Some i ->
        r ∈ rows keys ->
        ~ is_text (cell_at i r) ->
        exists msg, search_data_keys_for_dataflow self key_word keys
                    = ([], Raise (AttributeError msg))).
Proof.
  split.
  - intros Hpos. unfold search_data_keys_for_dataflow. rewrite Hpos. by eexists.
  - intros i r Hpos Hr Hc. unfold search_data_keys_for_dataflow. rewrite Hpos.
    destruct (repeated "TITLE_COMPL" (columns keys)); [by eexists |].
    assert (Hin : cell_at i r ∈ unique (cell_at i <$> rows keys)).
    { apply (proj2 (elem_of_unique _ _)), list_elem_of_fmap. by exists r. }
    destruct (map_result_cell_lower_raises _ _ Hin Hc) as [msg ->]. by exists msg.
Qed.

Lemma search_data_keys_fails_witness :
  (position_of "TITLE_COMPL" (columns gapped_keys) = Some 1%nat
   /\ ((Position 1, [ CStr "SEE.A.AT.WBR0.D00.Z.Q"; CNaN ]) ∈ rows gapped_keys))
  /\ search_data_keys_for_dataflow sample_self "trade" gapped_keys
     = ([], Raise (AttributeError "'float' object has no attribute 'lower'")).
Proof.
  split; [split; [reflexivity | by_evaluation] |].
  destruct (proj2 (search_data_keys_fails sample_self "trade" gapped_keys) 1%nat
              (Position 1, [ CStr "SEE.A.AT.WBR0.D00.Z.Q"; CNaN ]) eq_refl)
    as [msg Hmsg]; [by_evaluation | by intros [s [=]] |].
  reflexivity.
Defined.

(** X17. Filtering twice with the same keyword gives what filtering once
    gives: on a table that has one column named [TITLE_COMPL] and whose
    titles are all text, the result of the filter is left unchanged by the
    filter. *)
Theorem search_data_keys_idempotent (self : ECB_DATA_INFO) (key_word : string)
    (keys : DataFrame) (i : nat) :
  position_of "TITLE_COMPL" (columns keys) = Some i ->
  repeated "TITLE_COMPL" (columns keys) = false ->
  Forall (fun r => is_text (cell_at i r)) (rows keys) ->
  exists found,
    search_data_keys_for_dataflow self key_word keys = ([], Ok found)
    /\ search_data_keys_for_dataflow self key_word found = ([], Ok found).
Proof.
  intros Hpos Hrep Htext. eexists.
  split; [exact (search_data_keys_rows _ _ _ _ Hpos Hrep Htext) |].
  set (kept := filter (fun r => title_contains key_word (cell_at i r) = true) (rows keys)).
  assert (Hkept : Forall (fun d => is_text (field_at i d)
                                   /\ title_contains key_word (field_at i d) = true)
                    (snd <$> kept)).
  { apply Forall_fmap, Forall_forall. intros r Hr.
    apply list_elem_of_filter in Hr as [HP Hr]. split; [| exact HP].
    exact (proj1 (Forall_forall _ _) Htext r Hr). }
  apply (range_index_forall _ 0) in Hkept.
  rewrite (search_data_keys_rows self key_word _ i).
  - do 2 f_equal. unfold reset_index_drop. cbn [columns rows]. f_equal.
    rewrite filter_all; [by rewrite range_index_data |].
    eapply Forall_impl; [exact Hkept |]. by intros r [_ HP].
  - exact Hpos.
  - exact Hrep.
  - cbn [rows reset_index_drop]. eapply Forall_impl; [exact Hkept |]. by intros r [Ht _].
Qed.

Lemma search_data_keys_idempotent_witness :
  (position_of "TITLE_COMPL" (columns sample_keys) = Some 1%nat
   /\ repeated "TITLE_COMPL" (columns sample_keys) = false
   /\ Forall (fun r => is_text (cell_at 1 r)) (rows sample_keys))
  /\ exists found,
       search_data_keys_for_dataflow sample_self "trade" sample_keys = ([], Ok found)
       /\ search_data_keys_for_dataflow sample_self "trade" found = ([], Ok found).
Proof.
  assert (Htext : Forall (fun r => is_text (cell_at 1 r)) (rows sample_keys)).
  { repeat constructor; by eexists. }
  split; [split; [reflexivity | split; [reflexivity | exact Htext]] |].
  exact (search_data_keys_idempotent sample_self "trade" sample_keys 1 eq_refl eq_refl
           Htext).
Defined.

(** X18. On a table that has one column named [TITLE_COMPL] and whose
    titles are all ASCII text, for an ASCII keyword without capital letters
    the filter returns exactly the rows whose title matches the keyword
    with case ignored, in their order and renumbered from 0. *)
Theorem search_data_keys_lower_keyword (self : ECB_DATA_INFO) (key_word : string)
    (keys : DataFrame) (i : nat) :
  position_of "TITLE_COMPL" (columns keys) = Some i ->
  repeated "TITLE_COMPL" (columns keys) = false ->
  Forall (fun r => exists s, cell_at i r = CStr s /\ ascii_text s = true) (rows keys) ->
  ascii_text key_word = true ->
  lower key_word = key_word ->
  search_data_keys_for_dataflow self key_word keys
  = ([], Ok (reset_index_drop
               {| index_name := index_name keys;
                  columns := columns keys;
                  rows := filter (fun r => title_matches_ignoring_case key_word
                                             (cell_at i r) = true)
                            (rows keys) |})).
Proof.
  intros Hpos Hrep Hascii _ Hlow.
  assert (Htext : Forall (fun r => is_text (cell_at i r)) (rows keys)).
  { eapply Forall_impl; [exact Hascii |]. intros r (s & Hs & _). by exists s. }
  rewrite (search_data_keys_rows self key_word keys i Hpos Hrep Htext).
  do 4 f_equal. apply filter_ext_elem. intros r Hr.
  destruct (proj1 (Forall_forall _ _) Htext r Hr) as [s ->].
  cbn [title_matches_ignoring_case]. by rewrite title_contains_lower_keyword.
Qed.

Lemma search_data_keys_lower_keyword_witness :
  (position_of "TITLE_COMPL" (columns sample_keys) = Some 1%nat
   /\ repeated "TITLE_COMPL" (columns sample_keys) = false
   /\ Forall (fun r => exists s, cell_at 1 r = CStr s /\ ascii_text s = true)
        (rows sample_keys)
   /\ ascii_text "capital" = true
   /\ lower "capital" = "capital")
  /\ snd (search_data_keys_for_dataflow sample_self "capital" sample_keys)
     = Ok {| index_name := None;
             columns := [ "KEY"; "TITLE_COMPL" ];
             rows := [ (Position 0, [ CStr "SEE.A.AT.WBR0.D00.Z.Q";
                                      CStr "Market capitalisation" ]) ] |}.
Proof.
  assert (Hascii : Forall (fun r => exists s, cell_at 1 r = CStr s /\ ascii_text s = true)
                     (rows sample_keys)).
  { repeat constructor; by eexists. }
  split; [split; [reflexivity | split; [reflexivity | split; [exact Hascii |
          split; reflexivity]]] |].
  rewrite (search_data_keys_lower_keyword sample_self "capital" sample_keys 1 eq_refl
             eq_refl Hascii eq_refl eq_refl).
  vm_compute. reflexivity.
Defined.

(** X19. A keyword that holds a capital letter selects no row of any table
    that has one column named [TITLE_COMPL] and whose titles are all text:
    the filter returns the columns with no row. *)
Theorem search_data_keys_capital_keyword_empty (self : ECB_DATA_INFO)
    (key_word : string) (keys : DataFrame) (i : nat) :
  position_of "TITLE_COMPL" (columns keys) = Some i ->
  repeated "TITLE_COMPL" (columns keys) = false ->
  Forall (fun r => is_text (cell_at i r)) (rows keys) ->
  has_upper key_word = true ->
  search_data_keys_for_dataflow self key_word keys
  = ([], Ok {| index_name := None; columns := columns keys; rows := [] |}).
Proof. apply search_data_keys_capital_selects_nothing. Qed.

Lemma search_data_keys_capital_keyword_empty_witness :
  (position_of "TITLE_COMPL" (columns sample_keys) = Some 1%nat
   /\ repeated "TITLE_COMPL" (columns sample_keys) = false
   /\ Forall (fun r => is_text (cell_at 1 r)) (rows sample_keys)
   /\ has_upper "EURIBOR" = true)
  /\ search_data_keys_for_dataflow sample_self "EURIBOR" sample_keys
     = ([], Ok {| index_name := None; columns := [ "KEY"; "TITLE_COMPL" ]; rows := [] |}).
Proof.
  assert (Htext : Forall (fun r => is_text (cell_at 1 r)) (rows sample_keys)).
  { repeat constructor; by eexists. }
  split; [split; [reflexivity | split; [reflexivity | split; [exact Htext | reflexivity]]] |].
  exact (search_data_keys_capital_keyword_empty sample_self "EURIBOR" sample_keys 1
           eq_refl eq_refl Htext eq_refl).
Defined.

(** X20. Whatever table the filter returns has the columns of the table it
    was given, the default index from 0, and for rows a sub-sequence of the
    given rows, in their order. *)
Theorem search_data_keys_subsequence (self : ECB_DATA_INFO) (key_word : string)
    (keys found : DataFrame) :
  snd (search_data_keys_for_dataflow self key_word keys) = Ok found ->
  columns found = columns keys
  /\ index_name found = None
  /\ rows found = range_index 0 (snd <$> rows found)
  /\ sublist (snd <$> rows found) (snd <$> rows keys).
Proof.
  unfold search_data_keys_for_dataflow.
  destruct (position_of "TITLE_COMPL" (columns keys)) as [i |]; [| discriminate].
  destruct (repeated "TITLE_COMPL" (columns keys)); [discriminate |].
  unfold lift, ret.
  destruct (map_result cell_lower (unique (cell_at i <$> rows keys))) as [lowered | e];
    [| discriminate].
  rewrite bind_ok. cbn [fst snd]. intros [= <-].
  unfold reset_index_drop. cbn [columns rows index_name].
  rewrite range_index_data. repeat split.
  apply fmap_sublist, sublist_filter.
Qed.

Lemma search_data_keys_subsequence_witness :
  snd (search_data_keys_for_dataflow sample_self "trade" sample_keys)
  = Ok {| index_name := None;
          columns := [ "KEY"; "TITLE_COMPL" ];
          rows := [ (Position 0, [ CStr "SEE.A.AT.WBR0.EXL.E.E"; CStr "Trade balance" ]) ] |}
  /\ sublist [ [ CStr "SEE.A.AT.WBR0.EXL.E.E"; CStr "Trade balance" ] ]
       (snd <$> rows sample_keys).
Proof.
  split; [vm_compute; reflexivity |].
  apply (search_data_keys_subsequence sample_self "trade" sample_keys
           {| index_name := None;
              columns := [ "KEY"; "TITLE_COMPL" ];
              rows := [ (Position 0, [ CStr "SEE.A.AT.WBR0.EXL.E.E";
                                       CStr "Trade balance" ]) ] |}).
  vm_compute. reflexivity.
Defined.

(** ** The structure listings *)

(** Outcome of a listing that reads the component list [sel] of the
    structure. *)
Lemma listing_unresolved (ext : Collaborators) (self : ECB_DATA_INFO)
    (dataflow_id : string) (sel : DataStructureDefinition -> list Component) :
  snd (metadata_dataflow <- client_dataflow (ecb_connection self) (Some dataflow_id);;
       match dataflow metadata_dataflow !! dataflow_id with
       | None => raise (ValueError ("No DataflowDefinition found for dataflow: "
                                      ++ dataflow_id))
       | Some metadata_dataflow_flow =>
           call (to_pandas_components ext (sel (structure metadata_dataflow_flow)))
       end)
  = Raise (unresolved_identifier dataflow_id)
  <-> exists m, query (ecb_connection self) "dataflow" (Some dataflow_id) = inl m
                /\ dataflow m !! dataflow_id = None.
Proof.
  unfold client_dataflow, emit.
  destruct (query (ecb_connection self) "dataflow" (Some dataflow_id)) as [m | msg] eqn:Hq.
  - unfold call at 1, ret. repeat (rewrite bind_ok; cbn [fst snd app]).
    destruct (dataflow m !! dataflow_id) as [flow |] eqn:Hflow.
    + split; [| by intros (m' & [= <-] & Hnone); rewrite Hflow in Hnone].
      destruct (to_pandas_components ext (sel (structure flow))); discriminate.
    + split; [by exists m | reflexivity].
  - split; [discriminate | by intros (m & [=] & _)].
Qed.

Lemma listing_events (ext : Collaborators) (self : ECB_DATA_INFO)
    (dataflow_id : string) (sel : DataStructureDefinition -> list Component) :
  fst (metadata_dataflow <- client_dataflow (ecb_connection self) (Some dataflow_id);;
       match dataflow metadata_dataflow !! dataflow_id with
       | None => raise (ValueError ("No DataflowDefinition found for dataflow: "
                                      ++ dataflow_id))
       | Some metadata_dataflow_flow =>
           call (to_pandas_components ext (sel (structure metadata_dataflow_flow)))
       end)
  = [ SdmxQuery "dataflow" (Some dataflow_id) ].
Proof.
  unfold client_dataflow, emit.
  destruct (query (ecb_connection self) "dataflow" (Some dataflow_id)) as [m | msg];
    [| reflexivity].
  unfold call at 1, ret. repeat (rewrite bind_ok; cbn [fst snd app]).
  destruct (dataflow m !! dataflow_id) as [flow |]; [| reflexivity].
  destruct (to_pandas_components ext (sel (structure flow))); reflexivity.
Qed.

(** X21. Each structure listing (dimensions, attributes, measures, and the
    values of a dimension) raises the unresolved-identifier [ValueError]
    exactly when the provider answers the query and its answer does not
    hold the dataflow identifier; a failing query and a failing conversion
    end otherwise. *)
Theorem listings_unresolved_identifier_iff (ext : Collaborators) (self : ECB_DATA_INFO)
    (dataflow_id : string) :
  (snd (search_dataflow_dimensions ext self dataflow_id)
   = Raise (unresolved_identifier dataflow_id)
   <-> exists m, query (ecb_connection self) "dataflow" (Some dataflow_id) = inl m
                 /\ dataflow m !! dataflow_id = None)
  /\ (snd (search_dataflow_attributes ext self dataflow_id)
      = Raise (unresolved_identifier dataflow_id)
      <-> exists m, query (ecb_connection self) "dataflow" (Some dataflow_id) = inl m
                    /\ dataflow m !! dataflow_id = None)
  /\ (snd (search_dataflow_measures ext self dataflow_id)
      = Raise (unresolved_identifier dataflow_id)
      <-> exists m, query (ecb_connection self) "dataflow" (Some dataflow_id) = inl m
                    /\ dataflow m !! dataflow_id = None)
  /\ (forall dimension,
        snd (search_dataflow_dimension_values ext self dataflow_id dimension)
        = Raise (unresolved_identifier dataflow_id)
        <-> exists m, query (ecb_connection self) "dataflow" (Some dataflow_id) = inl m
                      /\ dataflow m !! dataflow_id = None).
Proof.
  split; [exact (listing_unresolved ext self dataflow_id dimensions) |].
  split; [exact (listing_unresolved ext self dataflow_id attributes) |].
  split; [exact (listing_unresolved ext self dataflow_id measures) |].
  intros dimension.
  destruct (query (ecb_connection self) "dataflow" (Some dataflow_id)) as [m | msg] eqn:Hq.
  2: { unfold search_dataflow_dimension_values, client_dataflow, emit. rewrite Hq.
       split; [discriminate | by intros (m & [=] & _)]. }
  destruct (dataflow m !! dataflow_id) as [flow |] eqn:Hflow.
  2: { unfold search_dataflow_dimension_values, client_dataflow, emit. rewrite Hq.
       unfold call, ret. repeat (rewrite bind_ok; cbn [fst snd app]). rewrite Hflow.
       split; [by exists m | reflexivity]. }
  split; [| by intros (m' & [= <-] & Hnone); rewrite Hflow in Hnone].
  intros Hraise. exfalso.
  destruct (to_pandas_components ext (dimensions (structure flow)))
    as [names | msg] eqn:Hnames.
  - rewrite (search_dataflow_dimension_values_resolved ext self dataflow_id dimension
               m flow names Hq Hflow Hnames) in Hraise.
    destruct (bool_decide (dimension ∈ names)).
    + by apply enumerated_values_not_unresolved in Hraise.
    + apply (f_equal (fun r => match r with
                               | Raise e => String.get 0 (exn_msg e)
                               | Ok _ => None
                               end)) in Hraise.
      discriminate Hraise.
  - revert Hraise. unfold search_dataflow_dimension_values, client_dataflow, emit.
    rewrite Hq. unfold call at 1, ret. repeat (rewrite bind_ok; cbn [fst snd app]).
    rewrite Hflow, Hnames. discriminate.
Qed.

Lemma listings_unresolved_identifier_iff_witness :
  (query (ecb_connection sample_self) "dataflow" (Some "XYZ") = inl sample_message
   /\ dataflow sample_message !! "XYZ" = None)
  /\ snd (search_dataflow_attributes (sample_ext 200) sample_self "XYZ")
     = Raise (ValueError "No DataflowDefinition found for dataflow: XYZ").
Proof.
  split; [split; reflexivity |].
  apply (proj1 (proj2 (listings_unresolved_identifier_iff (sample_ext 200) sample_self
                         "XYZ"))).
  exists sample_message. split; reflexivity.
Defined.

(** X22. A structure listing does one thing besides returning: it asks the
    client once for the dataflow it is given. It writes no log record, sends
    no request of its own and does not go through the validator, whether it
    returns or raises. *)
Theorem listings_query_once (ext : Collaborators) (self : ECB_DATA_INFO)
    (dataflow_id : string) :
  fst (search_dataflow_dimensions ext self dataflow_id)
  = [ SdmxQuery "dataflow" (Some dataflow_id) ]
  /\ fst (search_dataflow_attributes ext self dataflow_id)
     = [ SdmxQuery "dataflow" (Some dataflow_id) ]
  /\ fst (search_dataflow_measures ext self dataflow_id)
     = [ SdmxQuery "dataflow" (Some dataflow_id) ]
  /\ (forall dimension,
        fst (search_dataflow_dimension_values ext self dataflow_id dimension)
        = [ SdmxQuery "dataflow" (Some dataflow_id) ]).
Proof.
  split; [exact (listing_events ext self dataflow_id dimensions) |].
  split; [exact (listing_events ext self dataflow_id attributes) |].
  split; [exact (listing_events ext self dataflow_id measures) |].
  intros dimension. unfold search_dataflow_dimension_values, client_dataflow, emit.
  destruct (query (ecb_connection self) "dataflow" (Some dataflow_id)) as [m | msg];
    [| reflexivity].
  unfold call at 1, ret. repeat (rewrite bind_ok; cbn [fst snd app]).
  destruct (dataflow m !! dataflow_id) as [flow |]; [| reflexivity].
  destruct (to_pandas_components ext (dimensions (structure flow))) as [names | msg];
    [| reflexivity].
  unfold call at 1, ret. rewrite bind_ok. cbn [fst snd app].
  destruct (bool_decide (dimension ∈ names)); [| reflexivity]. cbn [negb].
  unfold lift.
  destruct (components_get (dimensions (structure flow)) dimension) as [c | e];
    [| reflexivity].
  rewrite bind_ok. cbn [fst snd app].
  destruct (get_enumerated c) as [values | e]; [| reflexivity].
  rewrite bind_ok. cbn [fst snd app].
  destruct (to_pandas_enumerated ext values); reflexivity.
Qed.

Example attributes_and_measures_listed :
  snd (search_dataflow_attributes (sample_ext 200) sample_self "EXR") = Ok [ "TITLE_COMPL" ]
  /\ snd (search_dataflow_measures (sample_ext 200) sample_self "EXR") = Ok [ "OBS_VALUE" ].
Proof. split; reflexivity. Qed.

(** ** The bulk listing on a validated response *)

(** X23. For a listed dataflow and a response with status 200,
    [all_data_keys_for_dataflow] sends its request, writes the informational
    record of the validator and then hands the body to the CSV parser: it
    raises the error of the parser when the body does not parse, and returns
    the parsed table, under the default index when every row has as many
    fields as the header. *)
Theorem all_data_keys_on_status_200 (ext : Collaborators) (self : ECB_DATA_INFO)
    (dataflow_id : string) (r : Response) :
  dataflow_id ∈ series_index (all_dataflows self) ->
  requests_get ext (bulk_request dataflow_id) = inl r ->
  status_code r = 200 ->
  (forall parsed,
     read_csv ext (text r) = inl parsed ->
     rectangular parsed ->
     all_data_keys_for_dataflow ext self dataflow_id
     = ([ HttpGet (bulk_request dataflow_id);
          Log INFO ("Connection established with url: " ++ url r
                      ++ " and headers: " ++ str_headers (headers r)) ],
        Ok (Some (frame_of_csv parsed))))
  /\ (forall msg,
        read_csv ext (text r) = inr msg ->
        all_data_keys_for_dataflow ext self dataflow_id
        = ([ HttpGet (bulk_request dataflow_id);
             Log INFO ("Connection established with url: " ++ url r
                         ++ " and headers: " ++ str_headers (headers r)) ],
           Raise (External msg))).
Proof.
  intros Hin Hget H200.
  rewrite (all_data_keys_answered ext self dataflow_id r Hin Hget).
  rewrite connection_handler_response, H200. cbn [Z.eqb Pos.eqb fst snd].
  rewrite bind_ok. unfold keys_of_response, call, ret.
  split; [intros parsed Hcsv _ | intros msg Hcsv]; by rewrite Hcsv.
Qed.

Lemma all_data_keys_on_status_200_witness :
  ("EXR" ∈ series_index (all_dataflows sample_self)
   /\ rectangular sample_table)
  /\ all_data_keys_for_dataflow (sample_ext 200) sample_self "EXR"
     = ([ HttpGet (bulk_request "EXR");
          Log INFO "Connection established with url: https://data-api.ecb.europa.eu/service/data/EXR and headers: {'Content-Type': 'text/csv'}" ],
        Ok (Some (frame_of_csv sample_table))).
Proof.
  split; [split; by_evaluation |].
  apply (proj1 (all_data_keys_on_status_200 (sample_ext 200) sample_self "EXR"
                  (sample_response 200) ltac:(by_evaluation) eq_refl eq_refl)
           sample_table); [reflexivity | by_evaluation].
Defined.

(** ** Statuses below 400 that are not 200 *)





